(** * The editor component of src/components/editor.js

    A shallow embedding of the [Editor] React component: how it resolves its
    plugin stack and schema from its props, how it passes a new state through
    the plugins' [onBeforeChange] and [onChange] hooks, how it routes an event
    to the plugins' handlers, and which of the host's callbacks it calls.

    The methods of the component mutate [this] and call functions that are
    not its own (the plugins' hooks and handlers, the host's callbacks).  They
    are written in a small monad that threads the editor object, records
    every such call in order, and propagates a thrown error.

    A function that is not the editor's own is a function of its arguments:
    it returns or throws, and does not call back into the editor.  A hook or
    a handler is handed the editor; what it can read of it is what
    [getState()] and [getSchema()] return.  [render], [focus] and [blur] are
    not part of the model. *)

From Stdlib Require Import List Arith Bool Lia Sorted.
From Stdlib Require String.
Import String.StringSyntax.
Delimit Scope string_scope with string.
Import ListNotations.

Set Implicit Arguments.

(** ** Object identity

    A JavaScript object is compared by reference: [a == b] on two objects is
    true exactly when they are the same instance.  Every object of the model
    carries its reference next to its content. *)

Definition Ref := nat.

Class Identity (A : Type) := ref : A -> Ref.

(** [a == b] for two objects. *)
Definition js_eq {A} `{Identity A} (a b : A) : bool :=
  Nat.eqb (ref a) (ref b).

(** [a == b] where [a] is an object and [b] is an object or [undefined]. *)
Definition js_eq_undef {A} `{Identity A} (a : A) (b : option A) : bool :=
  match b with
  | Some b' => js_eq a b'
  | None => false
  end.

(** [a == b] where each side is an object or [undefined]/[null]. *)
Definition js_eq_opt {A} `{Identity A} (a b : option A) : bool :=
  match a, b with
  | Some a', Some b' => js_eq a' b'
  | None, None => true
  | _, _ => false
  end.

(** The names in [EVENT_HANDLERS]. *)
Inductive EventName :=
| onBeforeInput | onBlur | onCopy | onCut | onDrop | onKeyDown | onPaste
| onSelect.

Definition EVENT_HANDLERS : list EventName :=
  [onBeforeInput; onBlur; onCopy; onCut; onDrop; onKeyDown; onPaste; onSelect].

Section Editor.

(** What the editor never looks into: the content of a document and of a
    selection, the native arguments of an event, a schema rule, the
    properties of a schema object, a thrown value, and the props that only
    [render] reads ([className], [placeholder], [readOnly], [spellCheck],
    [style], ...). *)
Context {DocumentData SelectionData NativeArg Rule SchemaProps Error
         Presentation : Type}.

(** ** Data *)

Record Document := {
  document_ref : Ref;
  document_data : DocumentData
}.

Record Selection := {
  selection_ref : Ref;
  selection_data : SelectionData
}.

(** A [State]: an immutable record with a [document] and a [selection]. *)
Record State := {
  state_ref : Ref;
  document : Document;
  selection : Selection
}.

#[export] Instance Document_Identity : Identity Document := document_ref.
#[export] Instance Selection_Identity : Identity Selection := selection_ref.
#[export] Instance State_Identity : Identity State := state_ref.

(** A [Schema], as far as the editor reads it: its [rules]. *)
Record Schema := {
  rules : list Rule
}.

(** The plain object passed as [schema], in the props or by a plugin. *)
Record SchemaObject := {
  schema_ref : Ref;
  schema_props : SchemaProps
}.

#[export] Instance SchemaObject_Identity : Identity SchemaObject := schema_ref.

(** How a call to a function that is not the editor's own ends. *)
Inductive Completion (A : Type) :=
| Normal (a : A)
| Throw (err : Error).

Arguments Normal {A} a.
Arguments Throw {A} err.

(** What a plugin can read from the editor handed to it: [getState()] and
    [getSchema()]. *)
Record Handle := {
  handle_state : option State;
  handle_schema : Schema
}.

(** [plugin.onBeforeChange(state, editor)] and [plugin.onChange(state,
    editor)]: a new state, or nothing ([None]: [undefined] or [null]), or a
    throw. *)
Definition Hook := State -> Handle -> Completion (option State).

(** [plugin[name](...args, state, editor)]; the state is [this.state.state]. *)
Definition Handler :=
  list NativeArg -> option State -> Handle -> Completion (option State).

(** The properties of a plugin object that the editor reads; [None] is an
    absent property. *)
Record Plugin := {
  plugin_schema : option SchemaObject;
  plugin_onBeforeChange : option Hook;
  plugin_onChange : option Hook;
  plugin_handler : EventName -> option Handler
}.

(** The array passed as [plugins]. *)
Record PluginArray := {
  plugins_ref : Ref;
  plugins_items : list Plugin
}.

#[export] Instance PluginArray_Identity : Identity PluginArray := plugins_ref.

(** The props, by [propTypes] and [defaultProps]. *)
Record Props := {
  props_onBeforeChange : option Hook;
  props_onChange : State -> Completion unit;
  props_onDocumentChange : Document -> State -> Completion unit;
  props_onSelectionChange : Selection -> State -> Completion unit;
  props_plugins : PluginArray;
  props_schema : option SchemaObject;
  props_state : State;
  props_handler : EventName -> option Handler;
  props_presentation : Presentation
}.

(** [this.state]. *)
Record EditorState := {
  state_plugins : list Plugin;
  state_schema : Schema;
  state_state : option State
}.

(** [this.tmp]: the cached document and selection; [{}] at first. *)
Record Tmp := {
  tmp_document : option Document;
  tmp_selection : option Selection
}.

(** The argument of a [setState]. *)
Record PartialState := {
  set_plugins : option (list Plugin);
  set_schema : option Schema;
  set_state : option State
}.

(** The component instance; [this_pending] is React's queue of state updates
    not yet merged into [this.state]. *)
Record Editor := {
  this_props : Props;
  this_tmp : Tmp;
  this_state : EditorState;
  this_pending : list PartialState
}.

(** ** Calls the editor makes to functions that are not its own

    [PluginBeforeChange i s] is [plugins[i].onBeforeChange(s, this)] for the
    [i]-th plugin of [this.state.plugins], and so on. *)
Inductive Call :=
| PluginBeforeChange (i : nat) (s : State)
| PluginChange (i : nat) (s : State)
| PluginEvent (i : nat) (name : EventName) (args : list NativeArg)
              (s : option State)
| PropsChange (s : State)
| PropsDocumentChange (d : Document) (s : State)
| PropsSelectionChange (sel : Selection) (s : State).

(** ** The monad of the methods *)

Record Run (A : Type) := {
  completion : Completion A;
  after : Editor;
  calls : list Call
}.

Definition M (A : Type) := Editor -> Run A.

Definition ret {A} (a : A) : M A :=
  fun this => {| completion := Normal a; after := this; calls := [] |}.

Definition bind {A B} (m : M A) (k : A -> M B) : M B :=
  fun this =>
    match m this with
    | {| completion := Normal a; after := this'; calls := cs |} =>
        match k a this' with
        | {| completion := c; after := this''; calls := cs' |} =>
            {| completion := c; after := this''; calls := cs ++ cs' |}
        end
    | {| completion := Throw err; after := this'; calls := cs |} =>
        {| completion := Throw err; after := this'; calls := cs |}
    end.

Definition get : M Editor :=
  fun this => {| completion := Normal this; after := this; calls := [] |}.

Definition modify (f : Editor -> Editor) : M unit :=
  fun this => {| completion := Normal tt; after := f this; calls := [] |}.

(** A call [c] that completes with [result]. *)
Definition call {A} (c : Call) (result : Completion A) : M A :=
  fun this => {| completion := result; after := this; calls := [c] |}.

Notation "x <- m ;; k" := (bind m (fun x => k))
  (at level 61, m at next level, right associativity).
Notation "m ;; k" := (bind m (fun _ => k))
  (at level 61, right associativity).

(** ** The methods *)

(** [getSchema] and [getState]. *)
Definition getSchema (this : Editor) : Schema := state_schema (this_state this).

Definition getState (this : Editor) : option State :=
  state_state (this_state this).

Definition handle (this : Editor) : Handle :=
  {| handle_state := getState this; handle_schema := getSchema this |}.

(** [this.setState(partial)]: React queues the update; [this.state] does not
    change before the lifecycle method that called it returns. *)
Definition setState (partial : PartialState) : M unit :=
  modify (fun this =>
    {| this_props := this_props this;
       this_tmp := this_tmp this;
       this_state := this_state this;
       this_pending := this_pending this ++ [partial] |}).

(** [cacheState]. *)
Definition cacheState (state : State) : M unit :=
  modify (fun this =>
    {| this_props := this_props this;
       this_tmp := {| tmp_document := Some (document state);
                      tmp_selection := Some (selection state) |};
       this_state := this_state this;
       this_pending := this_pending this |}).

(** The loop of [onBeforeChange] and of [onChange]: the same loop, over the
    property [sel] of each plugin; [i] is the index of the head of [plugins]
    in [this.state.plugins], [mk] builds the record of the call. *)
Fixpoint hook_loop (sel : Plugin -> option Hook) (mk : nat -> State -> Call)
    (plugins : list Plugin) (i : nat) (state : State) : M State :=
  match plugins with
  | [] => ret state
  | plugin :: rest =>
      match sel plugin with
      | None => hook_loop sel mk rest (S i) state
      | Some hook =>
          this <- get ;;
          newState <- call (mk i state) (hook state (handle this)) ;;
          match newState with
          | None => hook_loop sel mk rest (S i) state
          | Some state' => hook_loop sel mk rest (S i) state'
          end
      end
  end.

(** [onBeforeChange]. *)
Definition onBeforeChange (state : State) : M State :=
  this <- get ;;
  if js_eq_undef state (state_state (this_state this)) then ret state
  else
    hook_loop plugin_onBeforeChange PluginBeforeChange
      (state_plugins (this_state this)) 0 state.

(** [onChange]. *)
Definition onChange (state : State) : M unit :=
  this <- get ;;
  if js_eq_undef state (state_state (this_state this)) then ret tt
  else
    state <- hook_loop plugin_onChange PluginChange
               (state_plugins (this_state this)) 0 state ;;
    this <- get ;;
    call (PropsChange state) (props_onChange (this_props this) state) ;;
    this <- get ;;
    (if negb (js_eq_undef (document state) (tmp_document (this_tmp this)))
     then call (PropsDocumentChange (document state) state)
            (props_onDocumentChange (this_props this) (document state) state)
     else ret tt) ;;
    this <- get ;;
    (if negb (js_eq_undef (selection state) (tmp_selection (this_tmp this)))
     then call (PropsSelectionChange (selection state) state)
            (props_onSelectionChange (this_props this) (selection state) state)
     else ret tt) ;;
    cacheState state.

(** The loop of [onEvent]. *)
Fixpoint onEvent_loop (name : EventName) (args : list NativeArg)
    (plugins : list Plugin) (i : nat) : M unit :=
  match plugins with
  | [] => ret tt
  | plugin :: rest =>
      match plugin_handler plugin name with
      | None => onEvent_loop name args rest (S i)
      | Some handler =>
          this <- get ;;
          newState <-
            call (PluginEvent i name args (state_state (this_state this)))
              (handler args (state_state (this_state this)) (handle this)) ;;
          match newState with
          | None => onEvent_loop name args rest (S i)
          | Some state' => onChange state'
          end
      end
  end.

(** [onEvent]. *)
Definition onEvent (name : EventName) (args : list NativeArg) : M unit :=
  this <- get ;;
  onEvent_loop name args (state_plugins (this_state this)) 0.

(** The methods that the constructor mixes in, one for each name in
    [EVENT_HANDLERS]: [this[method] = (...args) => this.onEvent(method,
    ...args)]. *)
Definition eventMethods : list (EventName * (list NativeArg -> M unit)) :=
  map (fun method => (method, fun args => onEvent method args)) EVENT_HANDLERS.

(** [CorePlugin(props)], from ../plugins/core. *)
Variable CorePlugin : Props -> Plugin.

(** [Schema.create(plugin.schema)], from ../models/schema. *)
Variable Schema_create : SchemaObject -> Schema.

(** Modelled from the spec: [Schema.create({ rules })] is in ../models/schema;
    the final schema is built from the full accumulated rule sequence. *)
Definition Schema_create_rules (rs : list Rule) : Schema := {| rules := rs |}.

(** [const { onChange, plugins, ...editorPlugin } = props]: every property
    of the props but these two; of the properties the editor reads from a
    plugin, [onChange] is the one left out. *)
Definition editorPlugin (props : Props) : Plugin :=
  {| plugin_schema := props_schema props;
     plugin_onBeforeChange := props_onBeforeChange props;
     plugin_onChange := None;
     plugin_handler := props_handler props |}.

(** [resolvePlugins]. *)
Definition resolvePlugins (props : Props) : list Plugin :=
  let corePlugin := CorePlugin props in
  [editorPlugin props] ++ plugins_items (props_plugins props) ++ [corePlugin].

(** [resolveSchema]. *)
Definition resolveSchema (plugins : list Plugin) : Schema :=
  let rs :=
    fold_left
      (fun rs plugin =>
         match plugin_schema plugin with
         | None => rs
         | Some o =>
             let schema := Schema_create o in
             rs ++ rules schema
         end)
      plugins [] in
  Schema_create_rules rs.

(** The rules a plugin contributes: those of its expanded schema object, none
    when it has no [schema]. *)
Definition plugin_rules (plugin : Plugin) : list Rule :=
  match plugin_schema plugin with
  | None => []
  | Some o => rules (Schema_create o)
  end.

(** How React merges a queued update into [this.state]: the keys the update
    has replace the old ones. *)
Definition merge (s : EditorState) (partial : PartialState) : EditorState :=
  {| state_plugins :=
       match set_plugins partial with
       | Some plugins => plugins
       | None => state_plugins s
       end;
     state_schema :=
       match set_schema partial with
       | Some schema => schema
       | None => state_schema s
       end;
     state_state :=
       match set_state partial with
       | Some state => Some state
       | None => state_state s
       end |}.

(** [constructor]: the run of its body on the fresh instance. *)
Definition constructor (props : Props) : Run unit :=
  let plugins := resolvePlugins props in
  let schema := resolveSchema plugins in
  let this :=
    {| this_props := props;
       this_tmp := {| tmp_document := None; tmp_selection := None |};
       this_state := {| state_plugins := plugins;
                        state_schema := schema;
                        state_state := None |};
       this_pending := [] |} in
  (state <- onBeforeChange (props_state props) ;;
   cacheState state ;;
   modify (fun this =>
     {| this_props := this_props this;
        this_tmp := this_tmp this;
        this_state := {| state_plugins := state_plugins (this_state this);
                         state_schema := state_schema (this_state this);
                         state_state := Some state |};
        this_pending := this_pending this |})) this.

(** [componentWillReceiveProps]; [this.props] is still the old props. *)
Definition componentWillReceiveProps (props : Props) : M unit :=
  this <- get ;;
  (if negb (js_eq (props_plugins props) (props_plugins (this_props this)))
   then
     let plugins := resolvePlugins props in
     let schema := resolveSchema plugins in
     setState {| set_plugins := Some plugins;
                 set_schema := Some schema;
                 set_state := None |}
   else if negb (js_eq_opt (props_schema props)
                           (props_schema (this_props this)))
   then
     let schema := resolveSchema (state_plugins (this_state this)) in
     setState {| set_plugins := None;
                 set_schema := Some schema;
                 set_state := None |}
   else ret tt) ;;
  state <- onBeforeChange (props_state props) ;;
  cacheState state ;;
  setState {| set_plugins := None;
              set_schema := None;
              set_state := Some state |}.

(** What React does with new props: it calls [componentWillReceiveProps],
    and when that has returned it merges the queued updates into
    [this.state], in order, and replaces [this.props].  When
    [componentWillReceiveProps] throws, the run ends there with the updates
    it had queued still in the queue: what React does with them while the
    error unwinds is not part of the model, and the properties below say
    nothing of [this.state.plugins] and [this.state.schema] on that path
    beyond what holds whether or not they are merged. *)
Definition receiveProps (nextProps : Props) : M unit :=
  componentWillReceiveProps nextProps ;;
  modify (fun this =>
    {| this_props := nextProps;
       this_tmp := this_tmp this;
       this_state := fold_left merge (this_pending this) (this_state this);
       this_pending := [] |}).

(** ** What a run of the hooks amounts to

    The hooks are functions of their arguments, so the loop of
    [onBeforeChange] and [onChange] has a value and a list of calls that
    depend on the handle and the running state only. *)

(** The value of the loop: the state after the last hook, or the first
    throw. *)
Fixpoint run_hooks (sel : Plugin -> option Hook) (h : Handle)
    (plugins : list Plugin) (state : State) : Completion State :=
  match plugins with
  | [] => Normal state
  | plugin :: rest =>
      match sel plugin with
      | None => run_hooks sel h rest state
      | Some hook =>
          match hook state h with
          | Normal None => run_hooks sel h rest state
          | Normal (Some state') => run_hooks sel h rest state'
          | Throw err => Throw err
          end
      end
  end.

(** The calls of the loop. *)
Fixpoint hook_calls (sel : Plugin -> option Hook) (mk : nat -> State -> Call)
    (h : Handle) (plugins : list Plugin) (i : nat) (state : State)
    : list Call :=
  match plugins with
  | [] => []
  | plugin :: rest =>
      match sel plugin with
      | None => hook_calls sel mk h rest (S i) state
      | Some hook =>
          mk i state ::
          match hook state h with
          | Normal None => hook_calls sel mk h rest (S i) state
          | Normal (Some state') => hook_calls sel mk h rest (S i) state'
          | Throw _ => []
          end
      end
  end.

(** Which calls are what. *)
Definition is_hook_call (c : Call) : bool :=
  match c with
  | PluginBeforeChange _ _ | PluginChange _ _ => true
  | _ => false
  end.

Definition is_handler_call (c : Call) : bool :=
  match c with
  | PluginEvent _ _ _ _ => true
  | _ => false
  end.

Definition is_callback_call (c : Call) : bool :=
  match c with
  | PropsChange _ | PropsDocumentChange _ _ | PropsSelectionChange _ _ => true
  | _ => false
  end.

(** The index of the plugin a call goes to. *)
Definition call_index (c : Call) : option nat :=
  match c with
  | PluginBeforeChange i _ | PluginChange i _ | PluginEvent i _ _ _ => Some i
  | _ => None
  end.

(** How the handler behind a recorded [PluginEvent] call completed. *)
Definition handler_completion (this : Editor) (c : Call)
    : option (Completion (option State)) :=
  match c with
  | PluginEvent i name args s =>
      match nth_error (state_plugins (this_state this)) i with
      | Some plugin =>
          match plugin_handler plugin name with
          | Some handler => Some (handler args s (handle this))
          | None => None
          end
      | None => None
      end
  | _ => None
  end.

(** The handler calls of a run of plugins none of which returns a state: one
    call for each plugin that has a handler for [name]. *)
Fixpoint exposing_calls (name : EventName) (args : list NativeArg)
    (s : option State) (plugins : list Plugin) (i : nat) : list Call :=
  match plugins with
  | [] => []
  | plugin :: rest =>
      match plugin_handler plugin name with
      | None => exposing_calls name args s rest (S i)
      | Some _ =>
          PluginEvent i name args s :: exposing_calls name args s rest (S i)
      end
  end.

(** [c] goes to a plugin that comes before the plugin [c'] goes to. *)
Definition earlier (c c' : Call) : Prop :=
  match call_index c, call_index c' with
  | Some i, Some j => i < j
  | _, _ => False
  end.

(** A plugin declines an event: it has no handler for it, or its handler
    returns nothing. *)
Definition declines (name : EventName) (args : list NativeArg)
    (this : Editor) (plugin : Plugin) : Prop :=
  match plugin_handler plugin name with
  | None => True
  | Some handler =>
      handler args (state_state (this_state this)) (handle this) = Normal None
  end.

(** ** [blur] and [focus] *)

(** [state.transform().blur().apply()] and
    [state.transform().focus().apply()], from ../models/state: a state, or a
    throw. *)
Variable transform_blur : State -> Completion State.
Variable transform_focus : State -> Completion State.

(** The [TypeError] that reading a property of [undefined] throws. *)
Variable TypeError : Error.

(** The completion of an expression that calls nothing that is recorded. *)
Definition lift {A} (result : Completion A) : M A :=
  fun this => {| completion := result; after := this; calls := [] |}.

(** [blur]. *)
Definition blur : M unit :=
  this <- get ;;
  match state_state (this_state this) with
  | None => lift (Throw TypeError)
  | Some held =>
      state <- lift (transform_blur held) ;;
      onChange state
  end.

(** [focus]. *)
Definition focus : M unit :=
  this <- get ;;
  match state_state (this_state this) with
  | None => lift (Throw TypeError)
  | Some held =>
      state <- lift (transform_focus held) ;;
      onChange state
  end.

(** ** Conditions on an editor and on its plugins *)

(** The editor has a state and a cached document and selection, and no
    update of [this.state] is pending. *)
Definition is_constructed (this : Editor) : bool :=
  match this_pending this, state_state (this_state this),
        tmp_document (this_tmp this), tmp_selection (this_tmp this) with
  | [], Some _, Some _, Some _ => true
  | _, _, _, _ => false
  end.

(** The plugin lets [state] pass: it has no hook [sel], or its hook returns
    nothing on [state]. *)
Definition hook_passes (sel : Plugin -> option Hook) (h : Handle)
    (state : State) (plugin : Plugin) : Prop :=
  match sel plugin with
  | None => True
  | Some hook => hook state h = Normal None
  end.

(** The cache that [cacheState(state)] leaves. *)
Definition cache_of (state : State) : Tmp :=
  {| tmp_document := Some (document state);
     tmp_selection := Some (selection state) |}.

End Editor.

Arguments Normal {Error A} a.
Arguments Throw {Error A} err.

(** * Concrete editors

    Documents hold a text, selections a focus flag; native arguments, rules
    and thrown values are strings, and a schema object lists its rules. *)

Definition Text := String.string.

Definition TextState := @State Text bool.
Definition TextHandle := @Handle Text bool Text.
Definition TextSchemaObject := @SchemaObject (list Text).
Definition TextPlugin := @Plugin Text bool Text Text (list Text) Text.
Definition TextPluginArray :=
  @PluginArray Text bool Text Text (list Text) Text.
Definition TextProps := @Props Text bool Text Text (list Text) Text unit.
Definition TextEditor := @Editor Text bool Text Text (list Text) Text unit.
Definition TextHandler := @Handler Text bool Text Text Text.
Definition TextHook := @Hook Text bool Text Text.

(** Two documents with the same content and two selections with the same
    content: four instances. *)
Definition D0 : @Document Text :=
  {| document_ref := 1; document_data := "one"%string |}.
Definition D1 : @Document Text :=
  {| document_ref := 2; document_data := "one"%string |}.
Definition Sel0 : @Selection bool :=
  {| selection_ref := 3; selection_data := false |}.
Definition Sel1 : @Selection bool :=
  {| selection_ref := 4; selection_data := false |}.

Definition s0 : TextState :=
  {| state_ref := 10; document := D0; selection := Sel0 |}.
Definition s1 : TextState :=
  {| state_ref := 11; document := D1; selection := Sel0 |}.
Definition s2 : TextState :=
  {| state_ref := 12; document := D1; selection := Sel1 |}.
Definition s3 : TextState :=
  {| state_ref := 13; document := D0; selection := Sel0 |}.

(** An object with a handler for [onKeyDown] only. *)
Definition on_key_down (handler : TextHandler)
    : EventName -> option TextHandler :=
  fun name =>
    match name with
    | onKeyDown => Some handler
    | _ => None
    end.

(** A plugin whose key-down handler returns nothing. *)
Definition quietPlugin : TextPlugin :=
  {| plugin_schema := None;
     plugin_onBeforeChange := None;
     plugin_onChange := None;
     plugin_handler := on_key_down (fun _ _ _ => Normal None) |}.

(** A plugin with a rule, whose key-down handler returns [s1]. *)
Definition userPlugin : TextPlugin :=
  {| plugin_schema := Some {| schema_ref := 31;
                              schema_props := ["r1"%string] |};
     plugin_onBeforeChange := None;
     plugin_onChange := None;
     plugin_handler := on_key_down (fun _ _ _ => Normal (Some s1)) |}.

(** The core plugin: a rule, and a key-down handler that returns [s2]. *)
Definition corePlugin : TextPlugin :=
  {| plugin_schema := Some {| schema_ref := 32;
                              schema_props := ["r2"%string] |};
     plugin_onBeforeChange := None;
     plugin_onChange := None;
     plugin_handler := on_key_down (fun _ _ _ => Normal (Some s2)) |}.

(** A hook that throws on the state [s1] and returns nothing otherwise. *)
Definition reject_s1 : TextHook :=
  fun state _ =>
    if Nat.eqb (state_ref state) 11 then Throw "rejected"%string
    else Normal None.

Definition failingPlugin : TextPlugin :=
  {| plugin_schema := None;
     plugin_onBeforeChange := Some reject_s1;
     plugin_onChange := Some reject_s1;
     plugin_handler := fun _ => None |}.

(** A plugin whose [onChange] hook replaces any state by [s3]. *)
Definition revertingPlugin : TextPlugin :=
  {| plugin_schema := None;
     plugin_onBeforeChange := None;
     plugin_onChange := Some (fun _ _ => Normal (Some s3));
     plugin_handler := fun _ => None |}.

Definition TextCorePlugin : TextProps -> TextPlugin := fun _ => corePlugin.

Definition TextSchema_create (o : TextSchemaObject) : @Schema Text :=
  {| rules := schema_props o |}.

(** Props with the default callbacks ([noop]) and no handler of their own. *)
Definition props_of (plugins : TextPluginArray)
    (schema : option TextSchemaObject) (state : TextState) : TextProps :=
  {| props_onBeforeChange := None;
     props_onChange := fun _ => Normal tt;
     props_onDocumentChange := fun _ _ => Normal tt;
     props_onSelectionChange := fun _ _ => Normal tt;
     props_plugins := plugins;
     props_schema := schema;
     props_state := state;
     props_handler := fun _ => None;
     props_presentation := tt |}.

Definition userPlugins :=
  {| plugins_ref := 20; plugins_items := [quietPlugin; userPlugin] |}.

(** The editor of the key-down scenario: the state [s0], a schema of its
    own, and the plugins [quietPlugin] and [userPlugin]. *)
Definition scenarioProps : TextProps :=
  props_of userPlugins
    (Some {| schema_ref := 30; schema_props := ["r0"%string] |}) s0.

Definition scenarioEditor : TextEditor :=
  after (constructor TextCorePlugin TextSchema_create scenarioProps).

(** The same props with another [schema] object. *)
Definition newSchemaProps : TextProps :=
  props_of userPlugins
    (Some {| schema_ref := 33; schema_props := ["r-new"%string] |}) s0.

(** The scenario editor after [onChange(s1)], the host not having passed
    [s1] back yet. *)
Definition committedEditor : TextEditor := after (onChange s1 scenarioEditor).

(** An editor with the failing plugin, and props that bring it [s1]. *)
Definition failingProps : TextProps :=
  props_of {| plugins_ref := 21; plugins_items := [failingPlugin] |} None s0.

Definition failingEditor : TextEditor :=
  after (constructor TextCorePlugin TextSchema_create failingProps).

Definition failingNextProps : TextProps :=
  props_of {| plugins_ref := 21; plugins_items := [failingPlugin] |} None s1.

(** An editor with the reverting plugin. *)
Definition revertingProps : TextProps :=
  props_of {| plugins_ref := 22; plugins_items := [revertingPlugin] |} None s0.

Definition revertingEditor : TextEditor :=
  after (constructor TextCorePlugin TextSchema_create revertingProps).

(** The props of the scenario with a key-down handler of their own, which
    returns [s2], and the editor made from them. *)
Definition overridingProps : TextProps :=
  {| props_onBeforeChange := None;
     props_onChange := fun _ => Normal tt;
     props_onDocumentChange := fun _ _ => Normal tt;
     props_onSelectionChange := fun _ _ => Normal tt;
     props_plugins := userPlugins;
     props_schema := None;
     props_state := s0;
     props_handler := on_key_down (fun _ _ _ => Normal (Some s2));
     props_presentation := tt |}.

Definition overridingEditor : TextEditor :=
  after (constructor TextCorePlugin TextSchema_create overridingProps).

(** Props whose [onChange] throws, and the editor made from them. *)
Definition throwingProps : TextProps :=
  {| props_onBeforeChange := None;
     props_onChange := fun _ => Throw "host"%string;
     props_onDocumentChange := fun _ _ => Normal tt;
     props_onSelectionChange := fun _ _ => Normal tt;
     props_plugins := userPlugins;
     props_schema := None;
     props_state := s0;
     props_handler := fun _ => None;
     props_presentation := tt |}.

Definition throwingEditor : TextEditor :=
  after (constructor TextCorePlugin TextSchema_create throwingProps).

(** A plugin whose key-down handler throws, and an editor with it after the
    quiet plugin. *)
Definition crashingPlugin : TextPlugin :=
  {| plugin_schema := None;
     plugin_onBeforeChange := None;
     plugin_onChange := None;
     plugin_handler := on_key_down (fun _ _ _ => Throw "crash"%string) |}.

Definition crashingProps : TextProps :=
  props_of {| plugins_ref := 23;
              plugins_items := [quietPlugin; crashingPlugin] |} None s0.

Definition crashingEditor : TextEditor :=
  after (constructor TextCorePlugin TextSchema_create crashingProps).

(** A plugin whose key-down handler returns the state it is given. *)
Definition echoPlugin : TextPlugin :=
  {| plugin_schema := None;
     plugin_onBeforeChange := None;
     plugin_onChange := None;
     plugin_handler := on_key_down (fun _ held _ => Normal held) |}.

Definition echoProps : TextProps :=
  props_of {| plugins_ref := 24; plugins_items := [echoPlugin; userPlugin] |}
    None s0.

Definition echoEditor : TextEditor :=
  after (constructor TextCorePlugin TextSchema_create echoProps).

(** The scenario's props with another [plugins] array, which holds the
    failing plugin, and with the state [s1]. *)
Definition newPluginsProps : TextProps :=
  props_of {| plugins_ref := 25; plugins_items := [failingPlugin] |}
    (Some {| schema_ref := 33; schema_props := ["r-new"%string] |}) s1.

(** Props that bring the state [s2], which the failing plugin lets pass, to
    the editor with the failing plugin. *)
Definition passingNextProps : TextProps :=
  props_of {| plugins_ref := 21; plugins_items := [failingPlugin] |} None s2.

(** A focus transform: a new state with the same document and a new, focused
    selection; a blur transform that returns the state it is given. *)
Definition text_focus (state : TextState) : @Completion Text TextState :=
  Normal {| state_ref := state_ref state + 100;
            document := document state;
            selection := {| selection_ref :=
                              selection_ref (selection state) + 100;
                            selection_data := true |} |}.

Definition text_blur (state : TextState) : @Completion Text TextState :=
  Normal state.

(** * Properties *)

Section Properties.

Context {DocumentData SelectionData NativeArg Rule SchemaProps Error
         Presentation : Type}.

Abbreviation State := (@State DocumentData SelectionData).
Abbreviation Plugin :=
  (@Plugin DocumentData SelectionData NativeArg Rule SchemaProps Error).
Abbreviation Props :=
  (@Props DocumentData SelectionData NativeArg Rule SchemaProps Error
          Presentation).
Abbreviation Editor :=
  (@Editor DocumentData SelectionData NativeArg Rule SchemaProps Error
           Presentation).
Abbreviation Call := (@Call DocumentData SelectionData NativeArg).
Abbreviation SchemaObject := (@SchemaObject SchemaProps).
Abbreviation Schema := (@Schema Rule).

Variable CorePlugin : Props -> Plugin.
Variable Schema_create : SchemaObject -> Schema.

(** ** The event names *)

Lemma EVENT_HANDLERS_complete (name : EventName) : In name EVENT_HANDLERS.
Proof.
  destruct name; simpl; tauto.
Qed.

(** Each recognized event has its mixed-in method, which is [onEvent] at that
    name. *)
Lemma eventMethods_onEvent (name : EventName) (args : list NativeArg)
    (this : Editor) :
  exists method,
    In (name, method) (eventMethods (Presentation := Presentation))
    /\ method args this = onEvent name args this.
Proof.
  exists (fun args => onEvent name args). split; [|reflexivity].
  unfold eventMethods.
  apply (in_map (fun method => (method, fun args => onEvent method args))).
  apply EVENT_HANDLERS_complete.
Qed.

(** ** The loops *)

Lemma hook_loop_run sel mk (plugins : list Plugin) :
  forall i state (this : Editor),
    hook_loop sel mk plugins i state this =
    {| completion := run_hooks sel (handle this) plugins state;
       after := this;
       calls := hook_calls sel mk (handle this) plugins i state |}.
Proof.
  induction plugins as [|plugin rest IH]; intros i state this; simpl.
  - reflexivity.
  - destruct (sel plugin) as [hook|]; [|apply IH].
    unfold bind, get, call; simpl.
    destruct (hook state (handle this)) as [[state'|]|err]; simpl;
      try rewrite IH; reflexivity.
Qed.

Lemma run_hooks_app sel h (pre rest : list Plugin) :
  forall state : State,
    run_hooks sel h (pre ++ rest) state =
    match run_hooks sel h pre state with
    | Normal running => run_hooks sel h rest running
    | Throw err => Throw err
    end.
Proof.
  induction pre as [|plugin pre IH]; intros state; simpl.
  - reflexivity.
  - destruct (sel plugin) as [hook|]; [|apply IH].
    destruct (hook state h) as [[state'|]|err]; auto.
Qed.

Lemma run_hooks_throw sel h (pre post : list Plugin) plugin hook
    (state running : State) err :
  run_hooks sel h pre state = Normal running ->
  sel plugin = Some hook ->
  hook running h = Throw err ->
  run_hooks sel h (pre ++ plugin :: post) state = Throw err.
Proof.
  intros Hpre Hsel Hthrow.
  rewrite run_hooks_app, Hpre. simpl. now rewrite Hsel, Hthrow.
Qed.

Lemma hook_calls_kind (P : Call -> Prop) sel mk h (plugins : list Plugin) :
  (forall i s, P (mk i s)) ->
  forall i state, Forall P (hook_calls sel mk h plugins i state).
Proof.
  intros Hmk. induction plugins as [|plugin rest IH]; intros i state; simpl.
  - constructor.
  - destruct (sel plugin) as [hook|]; [|apply IH].
    constructor; [apply Hmk|].
    destruct (hook state h) as [[state'|]|err]; auto.
Qed.

(** ** [resolveSchema] *)

Lemma resolveSchema_fold (plugins : list Plugin) :
  forall acc,
    fold_left
      (fun rs plugin =>
         match plugin_schema plugin with
         | None => rs
         | Some o => rs ++ rules (Schema_create o)
         end) plugins acc
    = acc ++ flat_map (plugin_rules Schema_create) plugins.
Proof.
  induction plugins as [|plugin rest IH]; intros acc; simpl.
  - now rewrite app_nil_r.
  - rewrite IH. unfold plugin_rules at 2.
    destruct (plugin_schema plugin); simpl.
    + now rewrite app_assoc.
    + reflexivity.
Qed.

Lemma resolveSchema_rules (plugins : list Plugin) :
  rules (resolveSchema Schema_create plugins) =
  flat_map (plugin_rules Schema_create) plugins.
Proof.
  unfold resolveSchema, Schema_create_rules. simpl.
  now rewrite resolveSchema_fold.
Qed.

(** C5. The rules of the schema that [resolveSchema] composes are the rules of
    the plugins' expanded schema objects, concatenated in the order of the
    plugin list.  A plugin without a [schema] contributes no rule, and the
    composition is additive: the rules of a list followed by another are the
    rules of the first followed by the rules of the second, each kept as it
    is (so the number of rules is the sum of the plugins' numbers of rules:
    nothing is merged, removed or replaced). *)
Theorem resolveSchema_concatenates (plugins : list Plugin) :
  rules (resolveSchema Schema_create plugins) =
    flat_map (plugin_rules Schema_create) plugins
  /\ (forall before plugin after,
        plugins = before ++ plugin :: after ->
        plugin_schema plugin = None ->
        rules (resolveSchema Schema_create plugins) =
        rules (resolveSchema Schema_create (before ++ after)))
  /\ (forall before after,
        plugins = before ++ after ->
        rules (resolveSchema Schema_create plugins) =
        rules (resolveSchema Schema_create before) ++
        rules (resolveSchema Schema_create after))
  /\ length (rules (resolveSchema Schema_create plugins)) =
     list_sum
       (map (fun plugin => length (plugin_rules Schema_create plugin))
          plugins).
Proof.
  repeat split.
  - apply resolveSchema_rules.
  - intros before plugin after -> Hnone.
    rewrite !resolveSchema_rules, !flat_map_app. simpl.
    unfold plugin_rules at 2. now rewrite Hnone.
  - intros before after ->.
    now rewrite !resolveSchema_rules, flat_map_app.
  - rewrite resolveSchema_rules.
    induction plugins as [|plugin rest IH]; simpl.
    + reflexivity.
    + now rewrite length_app, IH.
Qed.

(** ** [resolvePlugins] *)

Lemma resolvePlugins_shape (props : Props) :
  resolvePlugins CorePlugin props =
  editorPlugin props :: plugins_items (props_plugins props) ++
  [CorePlugin props].
Proof. reflexivity. Qed.

(** ** Running the methods *)

Arguments js_eq : simpl never.
Arguments js_eq_undef : simpl never.
Arguments js_eq_opt : simpl never.

Ltac run_method :=
  unfold receiveProps, componentWillReceiveProps, onEvent, onBeforeChange,
    onChange, setState, cacheState, bind, get, call, ret, modify,
    getState in *;
  simpl in *.

Lemma onChange_same (this : Editor) (state : State) :
  js_eq_undef state (getState this) = true ->
  onChange state this =
  {| completion := Normal tt; after := this; calls := [] |}.
Proof.
  intros Hsame. run_method. now rewrite Hsame.
Qed.

Lemma onChange_throw (this : Editor) (state : State) err :
  js_eq_undef state (getState this) = false ->
  run_hooks plugin_onChange (handle this) (state_plugins (this_state this))
    state = Throw err ->
  onChange state this =
  {| completion := Throw err;
     after := this;
     calls := hook_calls plugin_onChange PluginChange (handle this)
                (state_plugins (this_state this)) 0 state |}.
Proof.
  intros Hsame Hthrow. run_method.
  rewrite Hsame, hook_loop_run. simpl. now rewrite Hthrow.
Qed.

Lemma onBeforeChange_same (this : Editor) (state : State) :
  js_eq_undef state (getState this) = true ->
  onBeforeChange state this =
  {| completion := Normal state; after := this; calls := [] |}.
Proof.
  intros Hsame. run_method. now rewrite Hsame.
Qed.

Lemma onBeforeChange_run (this : Editor) (state : State) :
  js_eq_undef state (getState this) = false ->
  onBeforeChange state this =
  {| completion := run_hooks plugin_onBeforeChange (handle this)
                     (state_plugins (this_state this)) state;
     after := this;
     calls := hook_calls plugin_onBeforeChange PluginBeforeChange
                (handle this) (state_plugins (this_state this)) 0 state |}.
Proof.
  intros Hsame. run_method. rewrite Hsame, hook_loop_run. reflexivity.
Qed.

Lemma onChange_calls_kind (this : Editor) (state : State) :
  Forall (fun c => is_handler_call c = false) (calls (onChange state this)).
Proof.
  assert (Hhooks : forall plugins i s,
    Forall (fun c : Call => is_handler_call c = false)
      (hook_calls plugin_onChange PluginChange (handle this) plugins i s))
    by (intros; apply hook_calls_kind; reflexivity).
  run_method.
  destruct (js_eq_undef state (state_state (this_state this))); simpl;
    [constructor|].
  rewrite hook_loop_run; simpl.
  destruct (run_hooks _ _ _ _) as [final|err]; simpl; [|apply Hhooks].
  destruct (props_onChange (this_props this) final) as [[]|err]; simpl.
  - destruct (js_eq_undef (document final) _); simpl;
      [|destruct (props_onDocumentChange _ _ _) as [[]|err]; simpl];
      try (destruct (js_eq_undef (selection final) _); simpl;
           [|destruct (props_onSelectionChange _ _ _) as [[]|err]; simpl]);
      (apply Forall_app; split; [apply Hhooks|repeat constructor]).
  - apply Forall_app; split; [apply Hhooks|repeat constructor].
Qed.

Lemma constructor_schema (props : Props) :
  getSchema (after (constructor CorePlugin Schema_create props)) =
  resolveSchema Schema_create (resolvePlugins CorePlugin props).
Proof.
  unfold constructor. generalize (resolvePlugins CorePlugin props).
  intros plugins. run_method. rewrite hook_loop_run. simpl.
  destruct (run_hooks _ _ _ _); reflexivity.
Qed.

Lemma receiveProps_same_plugins (this : Editor) (nextProps : Props) :
  this_pending this = [] ->
  js_eq (props_plugins nextProps) (props_plugins (this_props this)) = true ->
  state_plugins
    (this_state (after (receiveProps CorePlugin Schema_create nextProps this)))
  = state_plugins (this_state this).
Proof.
  intros Hpending Hsame. run_method. rewrite Hsame. simpl.
  destruct (js_eq_opt _ _); simpl;
    (destruct (js_eq_undef _ _); simpl;
     [|rewrite hook_loop_run; simpl; destruct (run_hooks _ _ _ _); simpl]);
    rewrite ?Hpending; reflexivity.
Qed.

(** C4. [resolvePlugins] returns the plugin made from the props, then the
    plugins of the props in the order given, then the core plugin: the core
    plugin is last (at position [n + 1] for [n] user plugins, in a list of
    [n + 2]), the user's [i]-th plugin is at position [i + 1].  The plugin
    made from the props, the first of the list, has the props' [schema],
    [onBeforeChange] and event handlers and no [onChange].  When new props
    arrive whose [plugins] is the same array as before (no update pending),
    the plugin list of the editor is left as it is, whatever else changed
    in the props. *)
Theorem resolvePlugins_order (props : Props) :
  resolvePlugins CorePlugin props =
    editorPlugin props :: plugins_items (props_plugins props) ++
    [CorePlugin props]
  /\ last (resolvePlugins CorePlugin props) (editorPlugin props) =
     CorePlugin props
  /\ (forall i plugin,
        nth_error (plugins_items (props_plugins props)) i = Some plugin ->
        nth_error (resolvePlugins CorePlugin props) (S i) = Some plugin)
  /\ plugin_onChange (editorPlugin props) = None
  /\ (forall (this : Editor) (nextProps : Props),
        this_pending this = [] ->
        js_eq (props_plugins nextProps) (props_plugins (this_props this))
          = true ->
        state_plugins
          (this_state
             (after (receiveProps CorePlugin Schema_create nextProps this)))
        = state_plugins (this_state this))
  /\ (forall first,
        nth_error (resolvePlugins CorePlugin props) 0 = Some first ->
        plugin_schema first = props_schema props
        /\ plugin_onBeforeChange first = props_onBeforeChange props
        /\ (forall name, plugin_handler first name = props_handler props name)
        /\ plugin_onChange first = None)
  /\ nth_error (resolvePlugins CorePlugin props)
       (S (length (plugins_items (props_plugins props)))) =
     Some (CorePlugin props)
  /\ length (resolvePlugins CorePlugin props) =
     length (plugins_items (props_plugins props)) + 2.
Proof.
  rewrite resolvePlugins_shape.
  split; [reflexivity|]. split; [|split; [|split; [reflexivity|]]].
  - change (editorPlugin props :: ?l) with ([editorPlugin props] ++ l).
    now rewrite app_assoc, last_last.
  - intros i plugin Hnth. simpl.
    rewrite nth_error_app1; [assumption|].
    apply nth_error_Some. congruence.
  - split; [apply receiveProps_same_plugins|]. split; [|split].
    + intros first Hfirst. simpl in Hfirst. injection Hfirst as <-.
      unfold editorPlugin. simpl. now repeat split.
    + simpl. rewrite nth_error_app2, Nat.sub_diag by apply Nat.le_refl.
      reflexivity.
    + simpl. rewrite length_app. simpl. lia.
Qed.

(** C8. [onChange] called with the state the editor already holds (the same
    instance as [this.state.state]) returns at once: it calls no plugin's
    [onChange] hook and none of the props' [onChange], [onDocumentChange] and
    [onSelectionChange], and it leaves the editor, its cache included, as it
    was. *)
Theorem onChange_same_state_noop (this : Editor) (state : State) :
  js_eq_undef state (getState this) = true ->
  completion (onChange state this) = Normal tt
  /\ after (onChange state this) = this
  /\ calls (onChange state this) = [].
Proof.
  intros Hsame. rewrite (onChange_same this state Hsame). now repeat split.
Qed.

(** C10. The plugin made from the props keeps the props' [schema] (and their
    [onBeforeChange] and event handlers; only [onChange] and [plugins] are
    left out), and it is the first plugin.  So when the props have a
    [schema], the rules of the resolved schema are the rules of that schema
    object, then the rules of the user's plugins, then the rules of the core
    plugin; this is the schema a new editor holds. *)
Theorem props_schema_rules_first (props : Props) :
  (plugin_schema (editorPlugin props) = props_schema props
   /\ plugin_onBeforeChange (editorPlugin props) = props_onBeforeChange props
   /\ (forall name,
         plugin_handler (editorPlugin props) name = props_handler props name)
   /\ plugin_onChange (editorPlugin props) = None)
  /\ (forall o,
        props_schema props = Some o ->
        rules (resolveSchema Schema_create (resolvePlugins CorePlugin props)) =
          rules (Schema_create o) ++
          flat_map (plugin_rules Schema_create)
            (plugins_items (props_plugins props)) ++
          plugin_rules Schema_create (CorePlugin props))
  /\ (forall o,
        props_schema props = Some o ->
        rules (getSchema (after (constructor CorePlugin Schema_create props)))
        = rules (Schema_create o) ++
          flat_map (plugin_rules Schema_create)
            (plugins_items (props_plugins props)) ++
          plugin_rules Schema_create (CorePlugin props)).
Proof.
  assert (Hrules : forall o,
    props_schema props = Some o ->
    rules (resolveSchema Schema_create (resolvePlugins CorePlugin props)) =
      rules (Schema_create o) ++
      flat_map (plugin_rules Schema_create)
        (plugins_items (props_plugins props)) ++
      plugin_rules Schema_create (CorePlugin props)).
  { intros o Ho. rewrite resolveSchema_rules, resolvePlugins_shape. simpl.
    rewrite flat_map_app. simpl. rewrite app_nil_r.
    unfold plugin_rules at 1. simpl. now rewrite Ho. }
  split; [now repeat split|]. split; [exact Hrules|].
  intros o Ho. rewrite constructor_schema. now apply Hrules.
Qed.

(** ** [onEvent] *)

Lemma exposing_calls_kind name args s (plugins : list Plugin) :
  forall i,
    Forall (fun c : Call => is_handler_call c = true)
      (exposing_calls name args s plugins i).
Proof.
  induction plugins as [|plugin rest IH]; intros i; simpl.
  - constructor.
  - destruct (plugin_handler plugin name); [constructor|]; auto.
Qed.

Lemma exposing_calls_app name args s (pre rest : list Plugin) :
  forall i,
    exposing_calls name args s (pre ++ rest) i =
    (exposing_calls name args s pre i ++
     exposing_calls name args s rest (i + length pre) : list Call).
Proof.
  induction pre as [|plugin pre IH]; intros i; simpl.
  - now rewrite Nat.add_0_r.
  - rewrite <- Nat.add_succ_comm.
    destruct (plugin_handler plugin name); simpl; now rewrite IH.
Qed.

(** Plugins that decline are passed over: the loop goes on with the plugins
    after them, having called the handlers that they have. *)
Lemma onEvent_loop_declined name args (this : Editor) (pre rest : list Plugin) :
  Forall (declines name args this) pre ->
  forall i,
    onEvent_loop name args (pre ++ rest) i this =
    match onEvent_loop name args rest (i + length pre) this with
    | {| completion := c; after := this'; calls := cs |} =>
        {| completion := c;
           after := this';
           calls := exposing_calls name args (getState this) pre i ++ cs |}
    end.
Proof.
  induction 1 as [|plugin pre Hdecl _ IH]; intros i; simpl.
  - rewrite Nat.add_0_r. now destruct (onEvent_loop name args rest i this).
  - unfold declines in Hdecl. rewrite Nat.add_succ_r.
    destruct (plugin_handler plugin name) as [handler|]; [|apply IH].
    unfold bind, get, call; simpl. rewrite Hdecl, IH. simpl.
    now destruct (onEvent_loop name args rest (S (i + length pre)) this).
Qed.

Lemma onEvent_loop_all_declined name args (this : Editor)
    (plugins : list Plugin) :
  Forall (declines name args this) plugins ->
  forall i,
    onEvent_loop name args plugins i this =
    {| completion := Normal tt;
       after := this;
       calls := exposing_calls name args (getState this) plugins i |}.
Proof.
  intros Hall i.
  rewrite <- (app_nil_r plugins) at 1.
  rewrite (onEvent_loop_declined [] Hall). simpl.
  now rewrite app_nil_r.
Qed.

(** C1. [onEvent] gives the event to the plugins in order.  When the plugins
    before some plugin all decline (they have no handler for the event, or
    their handler returns nothing) and that plugin's handler returns a state,
    [onEvent] does what [onChange] does with that state, after the calls to
    the handlers of the plugins up to that one, and calls no handler of a
    later plugin.  When all the plugins decline, [onEvent] returns with the
    editor as it was, and its only calls are to the handlers: there is no
    commit. *)
Theorem onEvent_first_result (this : Editor) name args :
  (forall pre plugin post handler state,
      state_plugins (this_state this) = pre ++ plugin :: post ->
      Forall (declines name args this) pre ->
      plugin_handler plugin name = Some handler ->
      handler args (getState this) (handle this) = Normal (Some state) ->
      completion (onEvent name args this) = completion (onChange state this)
      /\ after (onEvent name args this) = after (onChange state this)
      /\ calls (onEvent name args this) =
         exposing_calls name args (getState this) (pre ++ [plugin]) 0 ++
         calls (onChange state this))
  /\ (Forall (declines name args this) (state_plugins (this_state this)) ->
      completion (onEvent name args this) = Normal tt
      /\ after (onEvent name args this) = this
      /\ calls (onEvent name args this) =
         exposing_calls name args (getState this)
           (state_plugins (this_state this)) 0
      /\ Forall (fun c => is_handler_call c = true)
           (calls (onEvent name args this))).
Proof.
  split.
  - intros pre plugin post handler state Hplugins Hpre Hhandler Hstate.
    unfold getState in Hstate.
    unfold onEvent, bind, get; simpl. rewrite Hplugins.
    rewrite (onEvent_loop_declined (plugin :: post) Hpre). simpl.
    rewrite Hhandler. unfold bind, get, call; simpl. rewrite Hstate.
    rewrite exposing_calls_app. simpl. rewrite Hhandler.
    destruct (onChange state this) as [c this' cs]; simpl.
    now rewrite <- app_assoc.
  - intros Hall.
    unfold onEvent, bind, get; simpl.
    rewrite (onEvent_loop_all_declined Hall). simpl.
    repeat split. apply exposing_calls_kind.
Qed.

Lemma handler_completion_at (this : Editor) (done rest : list Plugin)
    plugin name args handler :
  state_plugins (this_state this) = done ++ plugin :: rest ->
  plugin_handler plugin name = Some handler ->
  handler_completion this
    (PluginEvent (length done) name args (state_state (this_state this))) =
  Some (handler args (state_state (this_state this)) (handle this)).
Proof.
  intros Hplugins Hhandler. simpl.
  rewrite Hplugins, nth_error_app2, Nat.sub_diag by apply Nat.le_refl.
  simpl. now rewrite Hhandler.
Qed.

(** The handler calls of the loop of [onEvent] from the plugin at position
    [length done] on. *)
Lemma onEvent_loop_handlers name args (this : Editor) :
  forall plugins done,
    state_plugins (this_state this) = done ++ plugins ->
    exists hs rest,
      calls (onEvent_loop name args plugins (length done) this) = hs ++ rest
      /\ Forall (fun c => is_handler_call c = true) hs
      /\ Forall (fun c => is_handler_call c = false) rest
      /\ StronglySorted earlier hs
      /\ Forall (fun c => exists i, call_index c = Some i /\ length done <= i)
           hs
      /\ (forall c, In c (removelast hs) ->
            handler_completion this c = Some (Normal None)).
Proof.
  induction plugins as [|plugin plugins IH]; intros done Hplugins.
  - exists [], []. simpl. repeat split; try constructor. intros c [].
  - specialize (IH (done ++ [plugin])).
    rewrite <- app_assoc, length_app, Nat.add_1_r in IH.
    specialize (IH Hplugins).
    destruct IH as (hs & rest & Hcalls & Hhs & Hrest & Hsorted & Hidx & Hnone).
    simpl.
    destruct (plugin_handler plugin name) as [handler|] eqn:Hhandler.
    + pose proof (@handler_completion_at this done plugins plugin name args
                    handler Hplugins Hhandler) as Hat.
      set (c0 := PluginEvent (length done) name args
                   (state_state (this_state this))) in *.
      unfold bind, get, call; simpl. fold c0.
      destruct (handler args (state_state (this_state this)) (handle this))
        as [[state'|]|err] eqn:Hres; simpl.
      * exists [c0], (calls (onChange state' this)).
        destruct (onChange state' this) as [c this' cs] eqn:Hchange; simpl.
        repeat split.
        -- repeat constructor.
        -- change cs with (calls {| completion := c; after := this';
                                    calls := cs |}).
           rewrite <- Hchange. apply onChange_calls_kind.
        -- repeat constructor.
        -- repeat constructor. exists (length done). now split.
        -- intros c' [].
      * exists (c0 :: hs), rest.
        destruct (onEvent_loop name args plugins (S (length done)) this)
          as [c this' cs]; simpl in *. subst cs.
        repeat split; try assumption.
        -- now constructor.
        -- constructor; [assumption|].
           eapply Forall_impl; [|exact Hidx].
           intros c' (i & Hi & Hle). unfold earlier. simpl. rewrite Hi. lia.
        -- constructor; [exists (length done); now split|].
           eapply Forall_impl; [|exact Hidx].
           intros c' (i & Hi & Hle). exists i. split; [assumption|lia].
        -- intros c' Hin. destruct hs as [|c1 hs]; [destruct Hin|].
           destruct Hin as [<-|Hin]; [exact Hat|now apply Hnone].
      * exists [c0], []. repeat split; repeat constructor.
        -- exists (length done). now split.
        -- intros c' [].
    + exists hs, rest. repeat split; try assumption.
      eapply Forall_impl; [|exact Hidx].
      intros c' (i & Hi & Hle). exists i. split; [assumption|lia].
Qed.

(** C9 (as amended). In one [onEvent], the handlers run one after the other,
    in the order of the plugin list and at most once for each plugin, before
    anything else is called; a handler runs only when every handler that ran
    before it returned nothing.  So at most one handler that returns a state
    runs, it is the last handler to run, and [onChange] is called with what
    it returned; any number of handlers that return nothing may run before
    it. *)
Theorem onEvent_handlers_in_turn (this : Editor) name args :
  exists hs rest,
    calls (onEvent name args this) = hs ++ rest
    /\ Forall (fun c => is_handler_call c = true) hs
    /\ Forall (fun c => is_handler_call c = false) rest
    /\ StronglySorted earlier hs
    /\ (forall c, In c (removelast hs) ->
          handler_completion this c = Some (Normal None)).
Proof.
  destruct (onEvent_loop_handlers name args this
              (state_plugins (this_state this)) [] eq_refl)
    as (hs & rest & Hcalls & Hhs & Hrest & Hsorted & _ & Hnone).
  exists hs, rest. repeat split; try assumption.
  unfold onEvent, bind, get; simpl. simpl in Hcalls.
  destruct (onEvent_loop name args (state_plugins (this_state this)) 0 this);
    assumption.
Qed.

(** ** A hook that throws *)

(** C2. When a hook of the chain throws (the hooks of the plugins before it
    having returned), nothing of the chain is applied.  For new props whose
    state goes through the [onBeforeChange] hooks: the error comes out of the
    update, [this.state.state] and the cache are what they were, no update of
    the state is queued, and none of the props' callbacks is called.  For
    [onChange]: the error comes out of [onChange], the editor is what it was,
    cache included, and none of the props' callbacks is called. *)
Theorem hook_failure_changes_nothing (this : Editor) :
  (forall nextProps pre plugin post hook running err,
      js_eq_undef (props_state nextProps) (getState this) = false ->
      state_plugins (this_state this) = pre ++ plugin :: post ->
      run_hooks plugin_onBeforeChange (handle this) pre
        (props_state nextProps) = Normal running ->
      plugin_onBeforeChange plugin = Some hook ->
      hook running (handle this) = Throw err ->
      let r := receiveProps CorePlugin Schema_create nextProps this in
      completion r = Throw err
      /\ getState (after r) = getState this
      /\ this_tmp (after r) = this_tmp this
      /\ (forall partial,
            In partial (this_pending (after r)) ->
            In partial (this_pending this) \/ set_state partial = None)
      /\ Forall (fun c => is_callback_call c = false) (calls r))
  /\ (forall state pre plugin post hook running err,
      js_eq_undef state (getState this) = false ->
      state_plugins (this_state this) = pre ++ plugin :: post ->
      run_hooks plugin_onChange (handle this) pre state = Normal running ->
      plugin_onChange plugin = Some hook ->
      hook running (handle this) = Throw err ->
      let r := onChange state this in
      completion r = Throw err
      /\ after r = this
      /\ Forall (fun c => is_callback_call c = false) (calls r)).
Proof.
  split.
  - intros nextProps pre plugin post hook running err
      Hguard Hplugins Hpre Hhook Hthrow.
    pose proof (run_hooks_throw _ _ _ post _ _ Hpre Hhook Hthrow) as Hrun.
    rewrite <- Hplugins in Hrun.
    assert (Hkind : forall h plugins i s,
      Forall (fun c : Call => is_callback_call c = false)
        (hook_calls plugin_onBeforeChange PluginBeforeChange h plugins i s))
      by (intros; apply hook_calls_kind; reflexivity).
    unfold handle, getSchema in Hrun. run_method.
    destruct (js_eq (props_plugins nextProps) _); simpl;
      [destruct (js_eq_opt _ _); simpl|];
      rewrite Hguard, hook_loop_run; simpl;
      unfold handle, getState, getSchema; simpl; rewrite Hrun; simpl;
      (repeat split; [|apply Hkind]);
      intros partial Hin; try (now left);
      (apply in_app_or in Hin; destruct Hin as [Hin|[<-|[]]];
       [now left|now right]).
  - intros state pre plugin post hook running err
      Hguard Hplugins Hpre Hhook Hthrow.
    pose proof (run_hooks_throw _ _ _ post _ _ Hpre Hhook Hthrow) as Hrun.
    rewrite <- Hplugins in Hrun.
    rewrite (onChange_throw this state Hguard Hrun). simpl.
    repeat split. apply hook_calls_kind. reflexivity.
Qed.

(** ** Notifications *)

(** The comparison behind a notification looks at the references only. *)
Lemma js_eq_undef_identity {A} `{Identity A} (a cached : A) :
  js_eq_undef a (Some cached) = false <-> ref a <> ref cached.
Proof.
  unfold js_eq_undef, js_eq. apply Nat.eqb_neq.
Qed.

Lemma onChange_run (this : Editor) (state final : State) :
  js_eq_undef state (getState this) = false ->
  run_hooks plugin_onChange (handle this) (state_plugins (this_state this))
    state = Normal final ->
  props_onChange (this_props this) final = Normal tt ->
  props_onDocumentChange (this_props this) (document final) final
    = Normal tt ->
  props_onSelectionChange (this_props this) (selection final) final
    = Normal tt ->
  onChange state this =
  {| completion := Normal tt;
     after := {| this_props := this_props this;
                 this_tmp := {| tmp_document := Some (document final);
                                tmp_selection := Some (selection final) |};
                 this_state := this_state this;
                 this_pending := this_pending this |};
     calls :=
       hook_calls plugin_onChange PluginChange (handle this)
         (state_plugins (this_state this)) 0 state ++
       PropsChange final ::
       (if js_eq_undef (document final) (tmp_document (this_tmp this))
        then [] else [PropsDocumentChange (document final) final]) ++
       (if js_eq_undef (selection final) (tmp_selection (this_tmp this))
        then [] else [PropsSelectionChange (selection final) final]) |}.
Proof.
  intros Hguard Hrun Hchange Hdocument Hselection. run_method.
  rewrite Hguard, hook_loop_run. simpl. rewrite Hrun, Hchange. simpl.
  destruct (js_eq_undef (document final) _); simpl;
    rewrite ?Hdocument; simpl;
    (destruct (js_eq_undef (selection final) _); simpl;
     rewrite ?Hselection; simpl);
    now rewrite ?app_nil_r.
Qed.

(** C3 (as amended). [onChange] called with a state that is not the instance
    the editor holds, when the [onChange] hooks of the plugins leave [final]
    as the state (the given state itself unless a hook returned another) and
    the props' callbacks return: it calls the props' [onChange] with
    [final]; it calls [onDocumentChange] with [final.document] and [final]
    exactly when [final.document] is not the cached document instance, and
    [onSelectionChange] with [final.selection] and [final] exactly when
    [final.selection] is not the cached selection instance; then it caches
    the document and the selection of [final].  The tests compare references,
    never content. *)
Theorem onChange_notifies_by_identity (this : Editor) (s2 final : State) :
  js_eq_undef s2 (getState this) = false ->
  run_hooks plugin_onChange (handle this) (state_plugins (this_state this))
    s2 = Normal final ->
  props_onChange (this_props this) final = Normal tt ->
  props_onDocumentChange (this_props this) (document final) final
    = Normal tt ->
  props_onSelectionChange (this_props this) (selection final) final
    = Normal tt ->
  completion (onChange s2 this) = Normal tt
  /\ calls (onChange s2 this) =
       hook_calls plugin_onChange PluginChange (handle this)
         (state_plugins (this_state this)) 0 s2 ++
       PropsChange final ::
       (if js_eq_undef (document final) (tmp_document (this_tmp this))
        then [] else [PropsDocumentChange (document final) final]) ++
       (if js_eq_undef (selection final) (tmp_selection (this_tmp this))
        then [] else [PropsSelectionChange (selection final) final])
  /\ (forall cached,
        tmp_document (this_tmp this) = Some cached ->
        (In (PropsDocumentChange (document final) final)
            (calls (onChange s2 this))
         <-> ref (document final) <> ref cached))
  /\ (forall cached,
        tmp_selection (this_tmp this) = Some cached ->
        (In (PropsSelectionChange (selection final) final)
            (calls (onChange s2 this))
         <-> ref (selection final) <> ref cached))
  /\ this_tmp (after (onChange s2 this)) =
       {| tmp_document := Some (document final);
          tmp_selection := Some (selection final) |}.
Proof.
  intros Hguard Hrun Hchange Hdocument Hselection.
  rewrite (onChange_run this s2 Hguard Hrun Hchange Hdocument Hselection).
  simpl.
  assert (Hhooks : forall c,
    In c (hook_calls plugin_onChange PluginChange (handle this)
            (state_plugins (this_state this)) 0 s2) ->
    is_hook_call c = true).
  { apply Forall_forall, hook_calls_kind. reflexivity. }
  split; [reflexivity|]. split; [reflexivity|].
  split; [|split; [|reflexivity]].
  - intros cached Hcached. rewrite Hcached. split.
    + intros Hin.
      apply (proj1 (js_eq_undef_identity (document final) cached)).
      apply in_app_or in Hin. destruct Hin as [Hin|[Hin|Hin]].
      * apply Hhooks in Hin. discriminate Hin.
      * discriminate Hin.
      * apply in_app_or in Hin.
        destruct (js_eq_undef (document final) _); [|reflexivity].
        destruct (js_eq_undef (selection final) _);
          simpl in Hin; intuition discriminate.
    + intros Hneq.
      apply (proj2 (js_eq_undef_identity (document final) cached)) in Hneq.
      rewrite Hneq. apply in_or_app. right. right. now left.
  - intros cached Hcached. rewrite Hcached. split.
    + intros Hin.
      apply (proj1 (js_eq_undef_identity (selection final) cached)).
      apply in_app_or in Hin. destruct Hin as [Hin|[Hin|Hin]].
      * apply Hhooks in Hin. discriminate Hin.
      * discriminate Hin.
      * apply in_app_or in Hin.
        destruct (js_eq_undef (selection final) _); [|reflexivity].
        destruct (js_eq_undef (document final) _);
          simpl in Hin; intuition discriminate.
    + intros Hneq.
      apply (proj2 (js_eq_undef_identity (selection final) cached)) in Hneq.
      rewrite Hneq. apply in_or_app. right. right. apply in_or_app. right.
      now left.
Qed.

(** ** New props *)

(** C7 (as amended). When the state of the new props is the instance the
    editor holds, [onBeforeChange] returns it at once, calling no plugin's
    hook and leaving the editor as it was.  The update then caches the
    document and the selection of that state, as after any update: the cache
    is left as it was when it held them already, and is reset to them when
    an [onChange] in between had moved it on.  The state stays the editor's
    state and nothing is called. *)
Theorem same_state_props_recached (this : Editor) (nextProps : Props) :
  js_eq_undef (props_state nextProps) (getState this) = true ->
  let state := props_state nextProps in
  let r := receiveProps CorePlugin Schema_create nextProps this in
  onBeforeChange state this =
    {| completion := Normal state; after := this; calls := [] |}
  /\ completion r = Normal tt
  /\ calls r = []
  /\ getState (after r) = Some state
  /\ this_tmp (after r) =
       {| tmp_document := Some (document state);
          tmp_selection := Some (selection state) |}
  /\ (tmp_document (this_tmp this) = Some (document state) ->
      tmp_selection (this_tmp this) = Some (selection state) ->
      this_tmp (after r) = this_tmp this).
Proof.
  intros Hsame state r.
  split; [now apply onBeforeChange_same|].
  assert (Hrun : completion r = Normal tt /\ calls r = []
                 /\ getState (after r) = Some state
                 /\ this_tmp (after r) =
                      {| tmp_document := Some (document state);
                         tmp_selection := Some (selection state) |}).
  { subst r state. run_method.
    destruct (js_eq (props_plugins nextProps) _); simpl;
      [destruct (js_eq_opt _ _); simpl|];
      rewrite Hsame; simpl; rewrite ?fold_left_app; now repeat split. }
  destruct Hrun as (Hcompletion & Hcalls & Hstate & Htmp).
  repeat split; try assumption.
  intros Hdocument Hselection. rewrite Htmp.
  destruct (this_tmp this) as [d sel]. simpl in *. now subst.
Qed.

(** When the [schema] of the new props is another object and their [plugins]
    is the same array, the schema that the update resolves is made from the
    plugins the editor holds: the new [schema] object has no part in it. *)
Lemma schema_update_from_held_plugins (this : Editor) (nextProps : Props) :
  this_pending this = [] ->
  js_eq (props_plugins nextProps) (props_plugins (this_props this)) = true ->
  js_eq_opt (props_schema nextProps) (props_schema (this_props this))
    = false ->
  completion (receiveProps CorePlugin Schema_create nextProps this)
    = Normal tt ->
  getSchema (after (receiveProps CorePlugin Schema_create nextProps this)) =
  resolveSchema Schema_create (state_plugins (this_state this)).
Proof.
  intros Hpending Hplugins Hschema. unfold getSchema. run_method.
  rewrite Hplugins, Hschema. simpl.
  destruct (js_eq_undef (props_state nextProps) _); simpl;
    [|rewrite hook_loop_run; simpl; destruct (run_hooks _ _ _ _); simpl];
    rewrite ?Hpending; simpl; intros Hdone;
    try reflexivity; discriminate Hdone.
Qed.

End Properties.

(** * The properties on the concrete editors *)

(** The key-down scenario: the props have no key-down handler, the first
    plugin's handler returns nothing, the second's returns [s1]; the core
    plugin's handler is not called, and the commit calls [onChange(s1)] and
    [onDocumentChange(D1, s1)], not [onSelectionChange]. *)
Example key_down_scenario :
  calls (onEvent onKeyDown ["k"%string] scenarioEditor) =
  [PluginEvent 1 onKeyDown ["k"%string] (Some s0);
   PluginEvent 2 onKeyDown ["k"%string] (Some s0);
   PropsChange s1;
   PropsDocumentChange D1 s1].
Proof. reflexivity. Qed.

(** In the scenario, key-down is committed as [onChange(s1)] after the
    handlers of the first two plugins; no plugin handles blur. *)
Lemma onEvent_first_result_scenario :
  (completion (onEvent onKeyDown ["k"%string] scenarioEditor) =
     completion (onChange s1 scenarioEditor)
   /\ after (onEvent onKeyDown ["k"%string] scenarioEditor) =
      after (onChange s1 scenarioEditor)
   /\ calls (onEvent onKeyDown ["k"%string] scenarioEditor) =
      exposing_calls onKeyDown ["k"%string] (getState scenarioEditor)
        ([editorPlugin scenarioProps; quietPlugin] ++ [userPlugin]) 0 ++
      calls (onChange s1 scenarioEditor))
  /\ (completion (onEvent onBlur [] scenarioEditor) = Normal tt
      /\ after (onEvent onBlur [] scenarioEditor) = scenarioEditor
      /\ calls (onEvent onBlur [] scenarioEditor) =
         exposing_calls onBlur [] (getState scenarioEditor)
           (state_plugins (this_state scenarioEditor)) 0
      /\ Forall (fun c => is_handler_call c = true)
           (calls (onEvent onBlur [] scenarioEditor))).
Proof.
  split.
  - apply (proj1 (onEvent_first_result scenarioEditor onKeyDown ["k"%string])
             [editorPlugin scenarioProps; quietPlugin] userPlugin [corePlugin]
             (fun _ _ _ => Normal (Some s1)) s1).
    + reflexivity.
    + repeat constructor.
    + reflexivity.
    + reflexivity.
  - apply (proj2 (onEvent_first_result scenarioEditor onBlur [])).
    repeat constructor.
Defined.

(** The failing plugin throws on [s1], in an update and in [onChange]. *)
Lemma hook_failure_changes_nothing_scenario :
  (let r := receiveProps TextCorePlugin TextSchema_create failingNextProps
              failingEditor in
   completion r = Throw "rejected"%string
   /\ getState (after r) = getState failingEditor
   /\ this_tmp (after r) = this_tmp failingEditor
   /\ (forall partial,
         In partial (this_pending (after r)) ->
         In partial (this_pending failingEditor) \/ set_state partial = None)
   /\ Forall (fun c => is_callback_call c = false) (calls r))
  /\ (let r := onChange s1 failingEditor in
      completion r = Throw "rejected"%string
      /\ after r = failingEditor
      /\ Forall (fun c => is_callback_call c = false) (calls r)).
Proof.
  split.
  - apply (proj1 (hook_failure_changes_nothing TextCorePlugin
                    TextSchema_create failingEditor)
             failingNextProps [editorPlugin failingProps] failingPlugin
             [corePlugin] reject_s1 s1 "rejected"%string);
      reflexivity.
  - apply (proj2 (hook_failure_changes_nothing TextCorePlugin
                    TextSchema_create failingEditor)
             s1 [editorPlugin failingProps] failingPlugin [corePlugin]
             reject_s1 s1 "rejected"%string);
      reflexivity.
Defined.

(** [s1] has a document that is not the cached instance, but the reverting
    plugin's [onChange] hook replaces [s1] by [s3], whose document is the
    cached one: [onDocumentChange] is not called, with [s1] or otherwise. *)
Lemma onChange_hook_replaces_notified_state :
  js_eq_undef s1 (getState revertingEditor) = false
  /\ js_eq_undef (document s1) (tmp_document (this_tmp revertingEditor))
     = false
  /\ calls (onChange s1 revertingEditor) = [PluginChange 1 s1; PropsChange s3]
  /\ ~ In (PropsDocumentChange (document s1) s1)
          (calls (onChange s1 revertingEditor)).
Proof.
  repeat split.
  intros [Hin|[Hin|[]]]; discriminate Hin.
Defined.

(** In the scenario, [s1] passes the hooks as it is; its document [D1] has
    the content of the cached [D0] but is another instance, so
    [onDocumentChange] is called; its selection is the cached instance, so
    [onSelectionChange] is not. *)
Lemma onChange_notifies_by_identity_scenario :
  document_data (document s1) = document_data D0
  /\ calls (onChange s1 scenarioEditor) =
     [PropsChange s1; PropsDocumentChange D1 s1]
  /\ this_tmp (after (onChange s1 scenarioEditor)) =
     {| tmp_document := Some D1; tmp_selection := Some Sel0 |}.
Proof.
  destruct (onChange_notifies_by_identity scenarioEditor s1 (final := s1)
              eq_refl eq_refl eq_refl eq_refl eq_refl)
    as (_ & Hcalls & _ & _ & Htmp).
  split; [reflexivity|]. split; [exact Hcalls|exact Htmp].
Defined.

(** The scenario's plugin list, and an update that only brings another
    [schema] object; the first plugin resolved from the props of the
    overriding editor has their schema (none), their key-down handler and no
    [onChange]. *)
Lemma resolvePlugins_order_scenario :
  resolvePlugins TextCorePlugin scenarioProps =
    [editorPlugin scenarioProps; quietPlugin; userPlugin; corePlugin]
  /\ js_eq_opt (props_schema newSchemaProps)
       (props_schema (this_props scenarioEditor)) = false
  /\ state_plugins
       (this_state
          (after (receiveProps TextCorePlugin TextSchema_create newSchemaProps
                    scenarioEditor))) =
     [editorPlugin scenarioProps; quietPlugin; userPlugin; corePlugin]
  /\ (forall first,
        nth_error (resolvePlugins TextCorePlugin overridingProps) 0
          = Some first ->
        plugin_schema first = None
        /\ plugin_onBeforeChange first = None
        /\ plugin_handler first onKeyDown =
           Some (fun _ _ _ => Normal (Some s2))
        /\ plugin_handler first onBlur = None
        /\ plugin_onChange first = None).
Proof.
  destruct (resolvePlugins_order TextCorePlugin TextSchema_create
              scenarioProps) as (Hshape & _ & _ & _ & Hkept & _).
  split; [exact Hshape|]. split; [reflexivity|].
  split; [exact (Hkept scenarioEditor newSchemaProps eq_refl eq_refl)|].
  intros first Hfirst.
  destruct (resolvePlugins_order TextCorePlugin TextSchema_create
              overridingProps) as (_ & _ & _ & _ & _ & Hcarried & _).
  destruct (Hcarried first Hfirst)
    as (Hschema & Hbefore & Hhandler & Hchange).
  split; [exact Hschema|]. split; [exact Hbefore|].
  split; [exact (Hhandler onKeyDown)|].
  split; [exact (Hhandler onBlur)|exact Hchange].
Defined.

(** A plugin with the rule r1, a plugin without schema, the core plugin with
    the rule r2: the rules are r1, r2, and the plugin in between can be left
    out.  A rule that two plugins have is there twice. *)
Lemma resolveSchema_concatenates_scenario :
  rules (resolveSchema TextSchema_create [userPlugin; quietPlugin; corePlugin])
    = ["r1"%string; "r2"%string]
  /\ rules (resolveSchema TextSchema_create
              [userPlugin; quietPlugin; corePlugin]) =
     rules (resolveSchema TextSchema_create ([userPlugin] ++ [corePlugin]))
  /\ rules (resolveSchema TextSchema_create [userPlugin; userPlugin])
     = ["r1"%string; "r1"%string].
Proof.
  destruct (resolveSchema_concatenates TextSchema_create
              [userPlugin; quietPlugin; corePlugin])
    as (Hrules & Hnone & _).
  split; [exact Hrules|]. split.
  - exact (Hnone [userPlugin] quietPlugin [corePlugin] eq_refl eq_refl).
  - exact (proj1 (resolveSchema_concatenates TextSchema_create
                    [userPlugin; userPlugin])).
Defined.

(** C6. An update that brings another [schema] object (rule r-new instead of
    r0) with the same [plugins] array completes and rebuilds a schema, but
    from the plugin list the editor holds, whose first plugin still has the
    old [schema]: the rules of the editor's schema are r0, r1, r2 as before
    and r-new is not among them, while an editor created from the new props
    has r-new, r1, r2.  The rebuilt schema does not reflect the new
    [schema]. *)
Theorem schema_update_keeps_stale_rules :
  let r := receiveProps TextCorePlugin TextSchema_create newSchemaProps
             scenarioEditor in
  js_eq (props_plugins newSchemaProps)
    (props_plugins (this_props scenarioEditor)) = true
  /\ js_eq_opt (props_schema newSchemaProps)
       (props_schema (this_props scenarioEditor)) = false
  /\ completion r = Normal tt
  /\ rules (getSchema scenarioEditor) = ["r0"; "r1"; "r2"]%string
  /\ rules (getSchema (after r)) = ["r0"; "r1"; "r2"]%string
  /\ rules (getSchema (after (constructor TextCorePlugin TextSchema_create
                                newSchemaProps))) =
     ["r-new"; "r1"; "r2"]%string.
Proof.
  intros r.
  assert (Hheld : getSchema (after r) =
                  resolveSchema TextSchema_create
                    (state_plugins (this_state scenarioEditor))).
  { now apply schema_update_from_held_plugins. }
  do 4 (split; [reflexivity|]).
  split; [|reflexivity].
  rewrite Hheld. reflexivity.
Qed.

(** After [onChange(s1)] the cache holds [D1] while the editor still holds
    [s0]; props that bring [s0] again reset the cache to [D0]. *)
Lemma same_state_props_reset_cache :
  let r := receiveProps TextCorePlugin TextSchema_create scenarioProps
             committedEditor in
  js_eq_undef (props_state scenarioProps) (getState committedEditor) = true
  /\ tmp_document (this_tmp committedEditor) = Some D1
  /\ tmp_document (this_tmp (after r)) = Some D0
  /\ calls r = []
  /\ this_tmp (after r) <> this_tmp committedEditor.
Proof.
  repeat split. intros Heq. discriminate Heq.
Defined.

(** Props that bring [s0] again to the scenario editor, whose cache holds
    the document and the selection of [s0]. *)
Lemma same_state_props_recached_scenario :
  let r := receiveProps TextCorePlugin TextSchema_create scenarioProps
             scenarioEditor in
  onBeforeChange s0 scenarioEditor =
    {| completion := Normal s0; after := scenarioEditor; calls := [] |}
  /\ completion r = Normal tt
  /\ calls r = []
  /\ getState (after r) = Some s0
  /\ this_tmp (after r) = this_tmp scenarioEditor.
Proof.
  destruct (same_state_props_recached TextCorePlugin TextSchema_create
              scenarioEditor scenarioProps eq_refl)
    as (Hbefore & Hcompletion & Hcalls & Hstate & _ & Hkept).
  split; [exact Hbefore|]. split; [exact Hcompletion|].
  split; [exact Hcalls|]. split; [exact Hstate|].
  exact (Hkept eq_refl eq_refl).
Defined.

(** [onChange(s0)] on the scenario editor, which holds [s0]. *)
Lemma onChange_same_state_noop_scenario :
  completion (onChange s0 scenarioEditor) = Normal tt
  /\ after (onChange s0 scenarioEditor) = scenarioEditor
  /\ calls (onChange s0 scenarioEditor) = [].
Proof.
  exact (onChange_same_state_noop scenarioEditor s0 eq_refl).
Defined.

(** In the scenario two handlers run for one key-down: the first returns
    nothing, the second returns [s1]. *)
Lemma onEvent_runs_two_handlers :
  filter is_handler_call (calls (onEvent onKeyDown ["k"%string] scenarioEditor))
    = [PluginEvent 1 onKeyDown ["k"%string] (Some s0);
       PluginEvent 2 onKeyDown ["k"%string] (Some s0)]
  /\ ~ length (filter is_handler_call
                 (calls (onEvent onKeyDown ["k"%string] scenarioEditor))) <= 1.
Proof.
  split; [reflexivity|]. simpl. lia.
Defined.

(** The rules of the scenario editor's schema: those of the props' schema
    first. *)
Lemma props_schema_rules_first_scenario :
  rules (resolveSchema TextSchema_create
           (resolvePlugins TextCorePlugin scenarioProps)) =
    ["r0"%string] ++ ["r1"%string] ++ ["r2"%string]
  /\ rules (getSchema scenarioEditor) =
     ["r0"%string] ++ ["r1"%string] ++ ["r2"%string].
Proof.
  destruct (props_schema_rules_first TextCorePlugin TextSchema_create
              scenarioProps) as (_ & Hresolved & Hcreated).
  split.
  - exact (Hresolved _ eq_refl).
  - exact (Hcreated _ eq_refl).
Defined.

(** * Further properties of the methods *)

Section Further.

Context {DocumentData SelectionData NativeArg Rule SchemaProps Error
         Presentation : Type}.

Abbreviation State := (@State DocumentData SelectionData).
Abbreviation Plugin :=
  (@Plugin DocumentData SelectionData NativeArg Rule SchemaProps Error).
Abbreviation Props :=
  (@Props DocumentData SelectionData NativeArg Rule SchemaProps Error
          Presentation).
Abbreviation Editor :=
  (@Editor DocumentData SelectionData NativeArg Rule SchemaProps Error
           Presentation).
Abbreviation Call := (@Call DocumentData SelectionData NativeArg).
Abbreviation SchemaObject := (@SchemaObject SchemaProps).
Abbreviation Schema := (@Schema Rule).
Abbreviation Handle := (@Handle DocumentData SelectionData Rule).

Variable CorePlugin : Props -> Plugin.
Variable Schema_create : SchemaObject -> Schema.

Arguments js_eq : simpl never.
Arguments js_eq_undef : simpl never.
Arguments js_eq_opt : simpl never.

Ltac run_editor :=
  unfold blur, focus, receiveProps, componentWillReceiveProps, onEvent,
    onBeforeChange, onChange, setState, cacheState, lift, bind, get, call,
    ret, modify, getState in *;
  simpl in *.

(** ** The order of the hooks *)

Lemma hook_calls_sorted sel mk (h : Handle) (plugins : list Plugin) :
  (forall j s, call_index (mk j s : Call) = Some j) ->
  forall i state,
    StronglySorted earlier (hook_calls sel mk h plugins i state)
    /\ Forall (fun c => exists j, call_index c = Some j /\ i <= j)
         (hook_calls sel mk h plugins i state).
Proof.
  intros Hmk. induction plugins as [|plugin rest IH]; intros i state; simpl.
  - split; constructor.
  - assert (Hnext : forall s,
      StronglySorted earlier (hook_calls sel mk h rest (S i) s)
      /\ Forall (fun c => exists j, call_index c = Some j /\ i <= j)
           (hook_calls sel mk h rest (S i) s)
      /\ Forall (earlier (mk i state)) (hook_calls sel mk h rest (S i) s)).
    { intros s. destruct (IH (S i) s) as [Hsorted Hidx].
      split; [assumption|]. split.
      - eapply Forall_impl; [|exact Hidx].
        intros c (j & Hj & Hle). exists j. split; [assumption|lia].
      - eapply Forall_impl; [|exact Hidx].
        intros c (j & Hj & Hle). unfold earlier. rewrite Hmk, Hj. lia. }
    destruct (sel plugin) as [hook|].
    + assert (Hhead : exists j, call_index (mk i state) = Some j /\ i <= j)
        by (exists i; split; [apply Hmk|lia]).
      destruct (hook state h) as [[state'|]|err].
      * destruct (Hnext state') as (Hsorted & Hidx & Hearlier).
        split; constructor; assumption.
      * destruct (Hnext state) as (Hsorted & Hidx & Hearlier).
        split; constructor; assumption.
      * split; repeat constructor. exact Hhead.
    + destruct (Hnext state) as (Hsorted & Hidx & _). now split.
Qed.

(** [onBeforeChange] only computes: whatever the state and the plugins, it
    leaves the editor as it was (the cache and [this.state] included), it
    calls nothing but [onBeforeChange] hooks, and it calls them in the order
    of the plugin list, each plugin's at most once. *)
Theorem onBeforeChange_only_computes (this : Editor) (state : State) :
  after (onBeforeChange state this) = this
  /\ Forall (fun c => exists i s, c = PluginBeforeChange i s)
       (calls (onBeforeChange state this))
  /\ StronglySorted earlier (calls (onBeforeChange state this)).
Proof.
  destruct (js_eq_undef state (getState this)) eqn:Hguard.
  - rewrite (onBeforeChange_same this state Hguard). simpl.
    repeat split; constructor.
  - rewrite (onBeforeChange_run this state Hguard). simpl.
    repeat split.
    + apply hook_calls_kind. intros i s. now exists i, s.
    + apply hook_calls_sorted. reflexivity.
Qed.

(** ** What a commit leaves of the editor *)

Lemma onChange_outcome (this : Editor) (state : State) :
  (exists err,
      completion (onChange state this) = Throw err
      /\ after (onChange state this) = this)
  \/ (completion (onChange state this) = Normal tt
      /\ after (onChange state this) = this)
  \/ (exists final,
        completion (onChange state this) = Normal tt
        /\ after (onChange state this) =
           {| this_props := this_props this;
              this_tmp := cache_of final;
              this_state := this_state this;
              this_pending := this_pending this |}).
Proof.
  run_editor.
  destruct (js_eq_undef state (state_state (this_state this))); simpl;
    [right; left; now split|].
  rewrite hook_loop_run; simpl.
  destruct (run_hooks _ _ _ _) as [final|err]; simpl;
    [|left; exists err; now split].
  destruct (props_onChange (this_props this) final) as [[]|err]; simpl;
    [|left; exists err; now split].
  destruct (js_eq_undef (document final) _); simpl;
    [|destruct (props_onDocumentChange _ _ _) as [[]|err]; simpl;
      [|left; exists err; now split]];
    (destruct (js_eq_undef (selection final) _); simpl;
     [|destruct (props_onSelectionChange _ _ _) as [[]|err]; simpl;
       [|left; exists err; now split]]);
    right; right; exists final; now split.
Qed.

Lemma onEvent_loop_outcome name args (this : Editor) (plugins : list Plugin) :
  forall i,
    (exists err,
        completion (onEvent_loop name args plugins i this) = Throw err
        /\ after (onEvent_loop name args plugins i this) = this)
    \/ (completion (onEvent_loop name args plugins i this) = Normal tt
        /\ after (onEvent_loop name args plugins i this) = this)
    \/ (exists final,
          completion (onEvent_loop name args plugins i this) = Normal tt
          /\ after (onEvent_loop name args plugins i this) =
             {| this_props := this_props this;
                this_tmp := cache_of final;
                this_state := this_state this;
                this_pending := this_pending this |}).
Proof.
  induction plugins as [|plugin rest IH]; intros i; simpl.
  - right. left. now split.
  - destruct (plugin_handler plugin name) as [handler|]; [|apply IH].
    unfold bind, get, call; simpl.
    destruct (handler args (state_state (this_state this)) (handle this))
      as [[state'|]|err]; simpl.
    + pose proof (onChange_outcome this state') as Hout.
      destruct (onChange state' this) as [c this' cs]; simpl in *. exact Hout.
    + specialize (IH (S i)).
      destruct (onEvent_loop name args rest (S i) this) as [c this' cs];
        simpl in *. exact IH.
    + left. exists err. now split.
Qed.

Lemma onEvent_outcome name args (this : Editor) :
  (exists err,
      completion (onEvent name args this) = Throw err
      /\ after (onEvent name args this) = this)
  \/ (completion (onEvent name args this) = Normal tt
      /\ after (onEvent name args this) = this)
  \/ (exists final,
        completion (onEvent name args this) = Normal tt
        /\ after (onEvent name args this) =
           {| this_props := this_props this;
              this_tmp := cache_of final;
              this_state := this_state this;
              this_pending := this_pending this |}).
Proof.
  pose proof (onEvent_loop_outcome name args this
                (state_plugins (this_state this)) 0) as Hout.
  unfold onEvent, bind, get; simpl.
  destruct (onEvent_loop name args (state_plugins (this_state this)) 0 this)
    as [c this' cs]; simpl in *. exact Hout.
Qed.

(** [onChange] and [onEvent] never make a state the editor's state: whatever
    they are given and however they end, [this.state] (state, plugins and
    schema), [this.props] and the queue of updates are what they were.  The
    new state reaches [this.state.state] only when the host passes it back
    in the props. *)
Theorem commit_keeps_this_state (this : Editor) :
  (forall state,
      this_state (after (onChange state this)) = this_state this
      /\ this_props (after (onChange state this)) = this_props this
      /\ this_pending (after (onChange state this)) = this_pending this)
  /\ (forall name args,
        this_state (after (onEvent name args this)) = this_state this
        /\ this_props (after (onEvent name args this)) = this_props this
        /\ this_pending (after (onEvent name args this)) = this_pending this).
Proof.
  split.
  - intros state.
    destruct (onChange_outcome this state)
      as [(err & _ & ->)|[(_ & ->)|(final & _ & ->)]]; now repeat split.
  - intros name args.
    destruct (onEvent_outcome name args this)
      as [(err & _ & ->)|[(_ & ->)|(final & _ & ->)]]; now repeat split.
Qed.

(** When [onChange] or [onEvent] throws, from a hook, a handler or one of the
    props' callbacks, the editor is exactly what it was: the cache is
    refreshed only by a commit that completes. *)
Theorem commit_throw_keeps_editor (this : Editor) err :
  (forall state,
      completion (onChange state this) = Throw err ->
      after (onChange state this) = this)
  /\ (forall name args,
        completion (onEvent name args this) = Throw err ->
        after (onEvent name args this) = this).
Proof.
  split.
  - intros state Hthrow.
    destruct (onChange_outcome this state)
      as [(err' & _ & Hafter)|[(Hdone & _)|(final & Hdone & _)]];
      [exact Hafter| |]; rewrite Hdone in Hthrow; discriminate Hthrow.
  - intros name args Hthrow.
    destruct (onEvent_outcome name args this)
      as [(err' & _ & Hafter)|[(Hdone & _)|(final & Hdone & _)]];
      [exact Hafter| |]; rewrite Hdone in Hthrow; discriminate Hthrow.
Qed.

(** ** Committing a state that the hooks let pass, and committing it again *)

Lemma js_eq_undef_refl {A} `{Identity A} (a : A) :
  js_eq_undef a (Some a) = true.
Proof.
  unfold js_eq_undef, js_eq. apply Nat.eqb_refl.
Qed.

Lemma run_hooks_passes sel (h : Handle) (plugins : list Plugin)
    (state : State) :
  Forall (hook_passes sel h state) plugins ->
  run_hooks sel h plugins state = Normal state.
Proof.
  induction 1 as [|plugin rest Hpass _ IH]; simpl.
  - reflexivity.
  - unfold hook_passes in Hpass.
    destruct (sel plugin) as [hook|]; [now rewrite Hpass|exact IH].
Qed.

(** When no plugin's [onChange] hook replaces the state (each plugin has no
    such hook, or its hook returns nothing) and the props' callbacks return,
    [onChange] with a state that is not the editor's calls the props'
    [onChange] with that very state, [onDocumentChange] with its document
    when the document is not the cached instance, [onSelectionChange] with
    its selection when the selection is not the cached instance, no other
    callback, and caches its document and selection. *)
Theorem onChange_unreplaced_state (this : Editor) (s2 : State) :
  js_eq_undef s2 (getState this) = false ->
  Forall (hook_passes plugin_onChange (handle this) s2)
    (state_plugins (this_state this)) ->
  props_onChange (this_props this) s2 = Normal tt ->
  props_onDocumentChange (this_props this) (document s2) s2 = Normal tt ->
  props_onSelectionChange (this_props this) (selection s2) s2 = Normal tt ->
  completion (onChange s2 this) = Normal tt
  /\ In (PropsChange s2) (calls (onChange s2 this))
  /\ (js_eq_undef (document s2) (tmp_document (this_tmp this)) = false ->
      In (PropsDocumentChange (document s2) s2) (calls (onChange s2 this)))
  /\ (js_eq_undef (selection s2) (tmp_selection (this_tmp this)) = false ->
      In (PropsSelectionChange (selection s2) s2) (calls (onChange s2 this)))
  /\ (forall c,
        In c (calls (onChange s2 this)) ->
        is_callback_call c = true ->
        c = PropsChange s2
        \/ c = PropsDocumentChange (document s2) s2
        \/ c = PropsSelectionChange (selection s2) s2)
  /\ this_tmp (after (onChange s2 this)) = cache_of s2.
Proof.
  intros Hguard Hpass Hchange Hdocument Hselection.
  pose proof (run_hooks_passes Hpass) as Hrun.
  rewrite (onChange_run this s2 Hguard Hrun Hchange Hdocument Hselection).
  simpl.
  assert (Hhooks : forall c,
    In c (hook_calls plugin_onChange PluginChange (handle this)
            (state_plugins (this_state this)) 0 s2) ->
    is_callback_call c = false).
  { apply Forall_forall, hook_calls_kind. reflexivity. }
  split; [reflexivity|]. split; [|split; [|split; [|split]]].
  - apply in_or_app. right. now left.
  - intros ->. apply in_or_app. right. right. now left.
  - intros ->. apply in_or_app. right. right. apply in_or_app. right.
    now left.
  - intros c Hin Hcallback.
    apply in_app_or in Hin. destruct Hin as [Hin|[<-|Hin]].
    + apply Hhooks in Hin. rewrite Hin in Hcallback. discriminate Hcallback.
    + now left.
    + apply in_app_or in Hin.
      destruct (js_eq_undef (document s2) _);
        destruct (js_eq_undef (selection s2) _);
        simpl in Hin; intuition (subst; auto).
  - reflexivity.
Qed.

(** A second [onChange] with the same state, right after one that completed,
    calls the same hooks and the props' [onChange] again, but neither
    [onDocumentChange] nor [onSelectionChange]: the first commit cached the
    document and the selection, and it did not make the state the editor's
    state, so the second is not skipped. *)
Theorem onChange_again (this : Editor) (state final : State) :
  js_eq_undef state (getState this) = false ->
  run_hooks plugin_onChange (handle this) (state_plugins (this_state this))
    state = Normal final ->
  props_onChange (this_props this) final = Normal tt ->
  props_onDocumentChange (this_props this) (document final) final
    = Normal tt ->
  props_onSelectionChange (this_props this) (selection final) final
    = Normal tt ->
  calls (onChange state (after (onChange state this))) =
    hook_calls plugin_onChange PluginChange (handle this)
      (state_plugins (this_state this)) 0 state ++ [PropsChange final]
  /\ after (onChange state (after (onChange state this))) =
     after (onChange state this).
Proof.
  intros Hguard Hrun Hchange Hdocument Hselection.
  rewrite (onChange_run this state Hguard Hrun Hchange Hdocument Hselection).
  simpl.
  set (this' := {| this_props := this_props this;
                   this_tmp := {| tmp_document := Some (document final);
                                  tmp_selection := Some (selection final) |};
                   this_state := this_state this;
                   this_pending := this_pending this |}).
  rewrite (onChange_run this' state (final := final)
             Hguard Hrun Hchange Hdocument Hselection).
  simpl. rewrite !js_eq_undef_refl. now split.
Qed.

(** ** Events: a handler that throws, that returns the held state, and a
    handler of the props *)

Lemma onEvent_loop_reaches name args (this : Editor) (pre post : list Plugin)
    plugin handler :
  Forall (declines name args this) pre ->
  plugin_handler plugin name = Some handler ->
  state_plugins (this_state this) = pre ++ plugin :: post ->
  onEvent name args this =
  match handler args (getState this) (handle this) with
  | Normal (Some state') =>
      match onChange state' this with
      | {| completion := c; after := this'; calls := cs |} =>
          {| completion := c;
             after := this';
             calls := exposing_calls name args (getState this)
                        (pre ++ [plugin]) 0 ++ cs |}
      end
  | Normal None =>
      match onEvent_loop name args post (S (length pre)) this with
      | {| completion := c; after := this'; calls := cs |} =>
          {| completion := c;
             after := this';
             calls := exposing_calls name args (getState this)
                        (pre ++ [plugin]) 0 ++ cs |}
      end
  | Throw err =>
      {| completion := Throw err;
         after := this;
         calls := exposing_calls name args (getState this)
                    (pre ++ [plugin]) 0 |}
  end.
Proof.
  intros Hpre Hhandler Hplugins.
  unfold onEvent, bind, get, getState; simpl. rewrite Hplugins.
  rewrite (onEvent_loop_declined (plugin :: post) Hpre). simpl.
  rewrite Hhandler. unfold bind, get, call, getState; simpl.
  rewrite exposing_calls_app. simpl. rewrite Hhandler.
  destruct (handler args (state_state (this_state this)) (handle this))
    as [[state'|]|err]; simpl.
  - destruct (onChange state' this) as [c this' cs]; simpl.
    now rewrite <- app_assoc.
  - destruct (onEvent_loop name args post (S (length pre)) this)
      as [c this' cs]; simpl.
    now rewrite <- app_assoc.
  - reflexivity.
Qed.

(** When the handler that the walk reaches throws, [onEvent] throws the same
    error; the editor is what it was, the handlers of the plugins up to that
    one are all that was called: no later handler, no hook, no callback. *)
Theorem onEvent_handler_throws (this : Editor) name args
    (pre post : list Plugin) plugin handler err :
  state_plugins (this_state this) = pre ++ plugin :: post ->
  Forall (declines name args this) pre ->
  plugin_handler plugin name = Some handler ->
  handler args (getState this) (handle this) = Throw err ->
  onEvent name args this =
  {| completion := Throw err;
     after := this;
     calls := exposing_calls name args (getState this) (pre ++ [plugin]) 0 |}.
Proof.
  intros Hplugins Hpre Hhandler Hthrow.
  rewrite (@onEvent_loop_reaches name args this pre post plugin handler
             Hpre Hhandler Hplugins).
  now rewrite Hthrow.
Qed.

(** A handler that returns the very state the editor holds ends the walk
    with no effect: the handlers of later plugins are not called, no hook and
    no callback is called, and the editor is what it was. *)
Theorem onEvent_handler_returns_held_state (this : Editor) name args
    (pre post : list Plugin) plugin handler state :
  state_plugins (this_state this) = pre ++ plugin :: post ->
  Forall (declines name args this) pre ->
  plugin_handler plugin name = Some handler ->
  handler args (getState this) (handle this) = Normal (Some state) ->
  js_eq_undef state (getState this) = true ->
  onEvent name args this =
  {| completion := Normal tt;
     after := this;
     calls := exposing_calls name args (getState this) (pre ++ [plugin]) 0 |}.
Proof.
  intros Hplugins Hpre Hhandler Hstate Hsame.
  rewrite (@onEvent_loop_reaches name args this pre post plugin handler
             Hpre Hhandler Hplugins).
  rewrite Hstate, (onChange_same this state Hsame).
  now rewrite app_nil_r.
Qed.

(** ** The plugin made from the props *)

Lemma onChange_calls_shape (this : Editor) (state : State) :
  exists hooks callbacks,
    calls (onChange state this) = hooks ++ callbacks
    /\ (hooks = []
        \/ hooks = hook_calls plugin_onChange PluginChange (handle this)
                     (state_plugins (this_state this)) 0 state)
    /\ Forall (fun c => is_callback_call c = true) callbacks.
Proof.
  run_editor.
  destruct (js_eq_undef state (state_state (this_state this))); simpl.
  { exists [], []. repeat split; [now left|constructor]. }
  rewrite hook_loop_run; simpl.
  destruct (run_hooks _ _ _ _) as [final|err]; simpl.
  2: { eexists _, []. rewrite app_nil_r.
       repeat split; [now right|constructor]. }
  destruct (props_onChange (this_props this) final) as [[]|err]; simpl.
  2: { eexists _, _. repeat split; [now right|repeat constructor]. }
  destruct (js_eq_undef (document final) _); simpl;
    [|destruct (props_onDocumentChange _ _ _) as [[]|err]; simpl];
    try (destruct (js_eq_undef (selection final) _); simpl;
         [|destruct (props_onSelectionChange _ _ _) as [[]|err]; simpl]);
    (eexists _, _; repeat split; [now right|repeat constructor]).
Qed.

(** In an editor whose plugins were resolved from props, the plugin made
    from the props comes first and has no [onChange]: a handler of the props
    for the event is the first handler called, with the state the editor
    holds, and when it returns a state that state is committed without any
    plugin's handler being called; and [onChange] never calls the props'
    [onChange] as a hook: no hook call goes to the plugin at position 0. *)
Theorem props_plugin_comes_first (this : Editor) (props : Props) :
  state_plugins (this_state this) = resolvePlugins CorePlugin props ->
  (forall name args handler state,
      props_handler props name = Some handler ->
      handler args (getState this) (handle this) = Normal (Some state) ->
      completion (onEvent name args this) = completion (onChange state this)
      /\ after (onEvent name args this) = after (onChange state this)
      /\ calls (onEvent name args this) =
         PluginEvent 0 name args (getState this) ::
         calls (onChange state this)
      /\ Forall (fun c => is_handler_call c = false)
           (calls (onChange state this)))
  /\ (forall state c i,
        In c (calls (onChange state this)) ->
        call_index c = Some i ->
        1 <= i).
Proof.
  intros Hplugins. rewrite resolvePlugins_shape in Hplugins.
  split.
  - intros name args handler state Hhandler Hstate.
    assert (Hreach := @onEvent_loop_reaches name args this []
              (plugins_items (props_plugins props) ++ [CorePlugin props])
              (editorPlugin props) handler
              (Forall_nil _) Hhandler Hplugins).
    rewrite Hreach, Hstate. simpl. rewrite Hhandler.
    destruct (onChange state this) as [c this' cs] eqn:Hchange; simpl.
    repeat split.
    change cs with (calls {| completion := c; after := this'; calls := cs |}).
    rewrite <- Hchange. apply onChange_calls_kind.
  - intros state c i Hin Hindex.
    destruct (onChange_calls_shape this state)
      as (hooks & callbacks & Hcalls & Hhooks & Hcallbacks).
    rewrite Hcalls in Hin. apply in_app_or in Hin.
    destruct Hin as [Hin|Hin].
    + destruct Hhooks as [->| ->]; [destruct Hin|].
      rewrite Hplugins in Hin. simpl in Hin.
      destruct (hook_calls_sorted plugin_onChange PluginChange (handle this)
                  (plugins_items (props_plugins props) ++ [CorePlugin props])
                  (fun _ _ => eq_refl) 1 state) as [_ Hidx].
      rewrite Forall_forall in Hidx.
      destruct (Hidx c Hin) as (j & Hj & Hle). congruence.
    + rewrite Forall_forall in Hcallbacks. apply Hcallbacks in Hin.
      destruct c; simpl in *; discriminate.
Qed.

(** ** Creating and updating the editor *)

(** A new editor holds the plugins and the schema resolved from its props.
    The state of the props always goes through the [onBeforeChange] hooks of
    those plugins (there is no state yet that it could be the same as), the
    hooks seeing an editor without state.  When the hooks complete, what
    they leave is the editor's state and its document and selection are
    cached; when a hook throws, the constructor throws and the editor has
    no state and an empty cache.  Nothing but these hooks is called. *)
Theorem constructor_outcome (props : Props) :
  let plugins := resolvePlugins CorePlugin props in
  let schema := resolveSchema Schema_create plugins in
  let h := {| handle_state := None; handle_schema := schema |} in
  let r := constructor CorePlugin Schema_create props in
  state_plugins (this_state (after r)) = plugins
  /\ getSchema (after r) = schema
  /\ this_props (after r) = props
  /\ calls r =
     hook_calls plugin_onBeforeChange PluginBeforeChange h plugins 0
       (props_state props)
  /\ match run_hooks plugin_onBeforeChange h plugins (props_state props) with
     | Normal state =>
         completion r = Normal tt
         /\ getState (after r) = Some state
         /\ this_tmp (after r) = cache_of state
         /\ is_constructed (after r) = true
     | Throw err =>
         completion r = Throw err
         /\ getState (after r) = None
         /\ this_tmp (after r) =
            {| tmp_document := None; tmp_selection := None |}
     end.
Proof.
  intros plugins schema h r. subst r. unfold constructor.
  fold plugins. fold schema. clearbody schema. clearbody plugins.
  run_editor. change (js_eq_undef (props_state props) None) with false.
  simpl. rewrite hook_loop_run. simpl.
  change (handle _) with h.
  destruct (run_hooks plugin_onBeforeChange h plugins (props_state props))
    as [state|err]; simpl; rewrite ?app_nil_r; now repeat split.
Qed.

Lemma receiveProps_calls (this : Editor) (nextProps : Props) :
  calls (receiveProps CorePlugin Schema_create nextProps this) =
  calls (onBeforeChange (props_state nextProps) this).
Proof.
  run_editor.
  destruct (js_eq (props_plugins nextProps) _); simpl;
    [destruct (js_eq_opt _ _); simpl|];
    (destruct (js_eq_undef (props_state nextProps) _); simpl;
     [reflexivity|]);
    rewrite !hook_loop_run; simpl; change (handle _) with (handle this);
    destruct (run_hooks _ _ _ _); simpl; now rewrite ?app_nil_r.
Qed.

Lemma onBeforeChange_calls_kind (this : Editor) (state : State) :
  Forall (fun c => exists i s, c = PluginBeforeChange i s)
    (calls (onBeforeChange state this)).
Proof.
  destruct (js_eq_undef state (getState this)) eqn:Hguard.
  - rewrite (onBeforeChange_same this state Hguard). constructor.
  - rewrite (onBeforeChange_run this state Hguard). simpl.
    apply hook_calls_kind. intros i s. now exists i, s.
Qed.

(** An update whose [onBeforeChange] completes with a state makes that state
    the editor's state, caches its document and selection, installs the new
    props and leaves no update of [this.state] pending; it calls nothing but
    [onBeforeChange] hooks: its calls are those of [onBeforeChange] on the
    new state, every one of them a call of a plugin's [onBeforeChange]. *)
Theorem receiveProps_outcome (this : Editor) (nextProps : Props)
    (state : State) :
  completion (onBeforeChange (props_state nextProps) this) = Normal state ->
  let r := receiveProps CorePlugin Schema_create nextProps this in
  completion r = Normal tt
  /\ getState (after r) = Some state
  /\ this_tmp (after r) = cache_of state
  /\ this_props (after r) = nextProps
  /\ this_pending (after r) = []
  /\ is_constructed (after r) = true
  /\ Forall (fun c => exists i s, c = PluginBeforeChange i s) (calls r)
  /\ calls r = calls (onBeforeChange (props_state nextProps) this).
Proof.
  intros Hbefore r.
  assert (Hcalls : calls r =
                   calls (onBeforeChange (props_state nextProps) this))
    by apply receiveProps_calls.
  assert (Hkind : Forall (fun c => exists i s, c = PluginBeforeChange i s)
                    (calls r))
    by (rewrite Hcalls; apply onBeforeChange_calls_kind).
  clear Hcalls.
  assert (Hrun : completion r = Normal tt
                 /\ getState (after r) = Some state
                 /\ this_tmp (after r) = cache_of state
                 /\ this_props (after r) = nextProps
                 /\ this_pending (after r) = []
                 /\ is_constructed (after r) = true).
  { clear Hkind. subst r.
    destruct (js_eq_undef (props_state nextProps) (getState this)) eqn:Hguard.
    - rewrite (onBeforeChange_same this _ Hguard) in Hbefore.
      injection Hbefore as <-.
      run_editor.
      destruct (js_eq (props_plugins nextProps) _); simpl;
        [destruct (js_eq_opt _ _); simpl|];
        rewrite Hguard; simpl; unfold is_constructed; simpl;
        rewrite ?fold_left_app; simpl; now repeat split.
    - rewrite (onBeforeChange_run this _ Hguard) in Hbefore.
      simpl in Hbefore.
      unfold handle, getSchema in Hbefore. run_editor.
      destruct (js_eq (props_plugins nextProps) _); simpl;
        [destruct (js_eq_opt _ _); simpl|];
        rewrite Hguard, hook_loop_run; simpl;
        unfold handle, getState, getSchema; simpl; rewrite Hbefore; simpl;
        unfold is_constructed; simpl;
        rewrite ?fold_left_app, ?app_nil_r; simpl; now repeat split. }
  destruct Hrun as (H1 & H2 & H3 & H4 & H5 & H6).
  repeat split; try assumption. apply receiveProps_calls.
Qed.

(** An update whose [plugins] is another array, when it completes, leaves
    the editor with the plugins resolved from the new props and the schema
    resolved from them; but the [onBeforeChange] hooks that the update runs
    on the new state are those of the plugin list held before, the new list
    being in place only once the update is over. *)
Theorem receiveProps_new_plugins (this : Editor) (nextProps : Props) :
  this_pending this = [] ->
  js_eq (props_plugins nextProps) (props_plugins (this_props this)) = false ->
  let r := receiveProps CorePlugin Schema_create nextProps this in
  calls r = calls (onBeforeChange (props_state nextProps) this)
  /\ (completion r = Normal tt ->
      state_plugins (this_state (after r)) =
        resolvePlugins CorePlugin nextProps
      /\ getSchema (after r) =
         resolveSchema Schema_create (resolvePlugins CorePlugin nextProps)).
Proof.
  intros Hpending Hplugins r. subst r. unfold getSchema. run_editor.
  rewrite Hplugins. simpl.
  destruct (js_eq_undef (props_state nextProps) _); simpl.
  - rewrite Hpending. simpl. now repeat split.
  - rewrite !hook_loop_run. simpl.
    change (handle _) with (handle this).
    destruct (run_hooks _ _ _ _); simpl; rewrite ?app_nil_r;
      (split; [reflexivity|]); intros Hdone;
      [rewrite Hpending; simpl; now split|discriminate Hdone].
Qed.

(** ** An editor that has been constructed stays so *)

(** [onChange] and [onEvent], however they end, leave a constructed editor
    constructed: it keeps a state, a cached document and selection, and no
    pending update.  (The constructor and an update establish this when they
    complete.) *)
Theorem commit_keeps_constructed (this : Editor) :
  is_constructed this = true ->
  (forall state, is_constructed (after (onChange state this)) = true)
  /\ (forall name args,
        is_constructed (after (onEvent name args this)) = true).
Proof.
  intros Hconstructed.
  assert (Hcache : forall final,
    is_constructed
      {| this_props := this_props this;
         this_tmp := cache_of final;
         this_state := this_state this;
         this_pending := this_pending this |} = true).
  { intros final. unfold is_constructed in *. simpl.
    destruct (this_pending this); [|discriminate Hconstructed].
    destruct (state_state (this_state this));
      [reflexivity|discriminate Hconstructed]. }
  split.
  - intros state.
    destruct (onChange_outcome this state)
      as [(err & _ & ->)|[(_ & ->)|(final & _ & ->)]]; auto.
  - intros name args.
    destruct (onEvent_outcome name args this)
      as [(err & _ & ->)|[(_ & ->)|(final & _ & ->)]]; auto.
Qed.

(** ** [focus] and [blur] *)

Variable transform_blur : State -> @Completion Error State.
Variable transform_focus : State -> @Completion Error State.
Variable TypeError : Error.

Lemma focus_run (this : Editor) (held : State) :
  getState this = Some held ->
  focus transform_focus TypeError this =
  match transform_focus held with
  | Normal state => onChange state this
  | Throw err => {| completion := Throw err; after := this; calls := [] |}
  end.
Proof.
  unfold getState. intros Hheld. unfold focus, bind, get, lift; simpl.
  rewrite Hheld. destruct (transform_focus held) as [state|err]; simpl;
    [|reflexivity].
  now destruct (onChange state this).
Qed.

Lemma blur_run (this : Editor) (held : State) :
  getState this = Some held ->
  blur transform_blur TypeError this =
  match transform_blur held with
  | Normal state => onChange state this
  | Throw err => {| completion := Throw err; after := this; calls := [] |}
  end.
Proof.
  unfold getState. intros Hheld. unfold blur, bind, get, lift; simpl.
  rewrite Hheld. destruct (transform_blur held) as [state|err]; simpl;
    [|reflexivity].
  now destruct (onChange state this).
Qed.

(** [focus] and [blur] do not go through the event handlers: whatever the
    editor and the transform, they call no plugin's handler and leave
    [this.state] as it was.  On an editor without state they throw a
    [TypeError] and call nothing.  When the transform returns the very state
    the editor holds, they do nothing: no hook, no callback, the editor as
    it was. *)
Theorem focus_blur_bypass_handlers (this : Editor) :
  (Forall (fun c => is_handler_call c = false)
     (calls (focus transform_focus TypeError this))
   /\ Forall (fun c => is_handler_call c = false)
        (calls (blur transform_blur TypeError this)))
  /\ (this_state (after (focus transform_focus TypeError this)) =
        this_state this
      /\ this_state (after (blur transform_blur TypeError this)) =
         this_state this)
  /\ (getState this = None ->
      focus transform_focus TypeError this =
        {| completion := Throw TypeError; after := this; calls := [] |}
      /\ blur transform_blur TypeError this =
         {| completion := Throw TypeError; after := this; calls := [] |})
  /\ (forall held state,
        getState this = Some held ->
        js_eq_undef state (Some held) = true ->
        (transform_focus held = Normal state ->
         focus transform_focus TypeError this =
           {| completion := Normal tt; after := this; calls := [] |})
        /\ (transform_blur held = Normal state ->
            blur transform_blur TypeError this =
              {| completion := Normal tt; after := this; calls := [] |})).
Proof.
  assert (Hnone : getState this = None ->
    focus transform_focus TypeError this =
      {| completion := Throw TypeError; after := this; calls := [] |}
    /\ blur transform_blur TypeError this =
       {| completion := Throw TypeError; after := this; calls := [] |}).
  { unfold getState. intros Hnone.
    unfold focus, blur, bind, get, lift; simpl. now rewrite Hnone. }
  destruct (getState this) as [held|] eqn:Hheld.
  - rewrite (focus_run this Hheld), (blur_run this Hheld).
    split; [|split; [|split]].
    + split.
      * destruct (transform_focus held);
          [apply onChange_calls_kind|constructor].
      * destruct (transform_blur held);
          [apply onChange_calls_kind|constructor].
    + split.
      * destruct (transform_focus held) as [state|err]; [|reflexivity].
        destruct (onChange_outcome this state)
          as [(err & _ & ->)|[(_ & ->)|(final & _ & ->)]]; reflexivity.
      * destruct (transform_blur held) as [state|err]; [|reflexivity].
        destruct (onChange_outcome this state)
          as [(err & _ & ->)|[(_ & ->)|(final & _ & ->)]]; reflexivity.
    + discriminate.
    + intros held' state Heq Hsame. injection Heq as <-.
      split; intros ->; apply onChange_same; now rewrite Hheld.
  - destruct (Hnone eq_refl) as [-> ->].
    split; [split; constructor|]. split; [now split|].
    split; [intros _; now split|]. discriminate.
Qed.

(** [focus] on an editor that holds a state, when the transform returns a
    state that is another instance, no [onChange] hook replaces it and the
    props' callbacks return: the props' [onChange] is called with the new
    state, and [onSelectionChange] is called with its selection whenever
    that selection is not the cached instance, whether or not its content
    differs from the cached one's. *)
Theorem focus_notifies_new_selection (this : Editor) (held state : State) :
  getState this = Some held ->
  transform_focus held = Normal state ->
  js_eq_undef state (Some held) = false ->
  Forall (hook_passes plugin_onChange (handle this) state)
    (state_plugins (this_state this)) ->
  props_onChange (this_props this) state = Normal tt ->
  props_onDocumentChange (this_props this) (document state) state
    = Normal tt ->
  props_onSelectionChange (this_props this) (selection state) state
    = Normal tt ->
  js_eq_undef (selection state) (tmp_selection (this_tmp this)) = false ->
  completion (focus transform_focus TypeError this) = Normal tt
  /\ In (PropsChange state) (calls (focus transform_focus TypeError this))
  /\ In (PropsSelectionChange (selection state) state)
       (calls (focus transform_focus TypeError this))
  /\ this_tmp (after (focus transform_focus TypeError this)) = cache_of state.
Proof.
  intros Hheld Htransform Hnew Hpass Hchange Hdocument Hselection Hdiffers.
  rewrite (focus_run this Hheld), Htransform.
  rewrite <- Hheld in Hnew.
  pose proof (run_hooks_passes Hpass) as Hrun.
  rewrite (onChange_run this state Hnew Hrun Hchange Hdocument Hselection).
  simpl. rewrite Hdiffers.
  split; [reflexivity|]. split; [|split; [|reflexivity]].
  - apply in_or_app. right. now left.
  - apply in_or_app. right. right. apply in_or_app. right. now left.
Qed.

End Further.

(** * The further properties on the concrete editors *)

(** The host's [onChange] throws on a commit, a handler throws on a
    key-down: the editors are left as they were. *)
Lemma commit_throw_keeps_editor_scenario :
  after (onChange s1 throwingEditor) = throwingEditor
  /\ after (onEvent onKeyDown ["k"%string] crashingEditor) = crashingEditor.
Proof.
  split.
  - exact (proj1 (commit_throw_keeps_editor throwingEditor "host"%string)
             s1 eq_refl).
  - exact (proj2 (commit_throw_keeps_editor crashingEditor "crash"%string)
             onKeyDown ["k"%string] eq_refl).
Defined.

(** No plugin of the scenario has an [onChange] hook: [s1] is committed as
    it is. *)
Lemma onChange_unreplaced_state_scenario :
  completion (onChange s1 scenarioEditor) = Normal tt
  /\ In (PropsChange s1) (calls (onChange s1 scenarioEditor))
  /\ In (PropsDocumentChange D1 s1) (calls (onChange s1 scenarioEditor))
  /\ this_tmp (after (onChange s1 scenarioEditor)) = cache_of s1.
Proof.
  destruct (@onChange_unreplaced_state _ _ _ _ _ _ _ scenarioEditor s1)
    as (Hdone & Hchange & Hdocument & _ & _ & Htmp);
    try reflexivity.
  - repeat constructor.
  - split; [exact Hdone|]. split; [exact Hchange|].
    split; [exact (Hdocument eq_refl)|exact Htmp].
Defined.

(** [onChange(s1)] twice on the scenario editor: the second calls the props'
    [onChange] only. *)
Lemma onChange_again_scenario :
  calls (onChange s1 scenarioEditor) =
    [PropsChange s1; PropsDocumentChange D1 s1]
  /\ calls (onChange s1 (after (onChange s1 scenarioEditor))) =
     [] ++ [PropsChange s1]
  /\ after (onChange s1 (after (onChange s1 scenarioEditor))) =
     after (onChange s1 scenarioEditor).
Proof.
  split; [reflexivity|].
  exact (onChange_again scenarioEditor s1 (final := s1)
           eq_refl eq_refl eq_refl eq_refl eq_refl).
Defined.

(** The second plugin's key-down handler throws: the core plugin's is not
    called. *)
Lemma onEvent_handler_throws_scenario :
  onEvent onKeyDown ["k"%string] crashingEditor =
  {| completion := Throw "crash"%string;
     after := crashingEditor;
     calls := exposing_calls onKeyDown ["k"%string] (getState crashingEditor)
                ([editorPlugin crashingProps; quietPlugin] ++
                 [crashingPlugin]) 0 |}.
Proof.
  apply (@onEvent_handler_throws _ _ _ _ _ _ _ crashingEditor onKeyDown
           ["k"%string] [editorPlugin crashingProps; quietPlugin]
           [corePlugin] crashingPlugin
           (fun _ _ _ => Throw "crash"%string) "crash"%string).
  - reflexivity.
  - repeat constructor.
  - reflexivity.
  - reflexivity.
Defined.

(** The first plugin's key-down handler returns the state it is given: the
    handler of the next plugin, which would return [s1], is not called. *)
Lemma onEvent_handler_returns_held_state_scenario :
  onEvent onKeyDown ["k"%string] echoEditor =
  {| completion := Normal tt;
     after := echoEditor;
     calls := exposing_calls onKeyDown ["k"%string] (getState echoEditor)
                ([editorPlugin echoProps] ++ [echoPlugin]) 0 |}.
Proof.
  apply (@onEvent_handler_returns_held_state _ _ _ _ _ _ _ echoEditor
           onKeyDown ["k"%string] [editorPlugin echoProps]
           [userPlugin; corePlugin] echoPlugin
           (fun _ held _ => Normal held) s0).
  - reflexivity.
  - repeat constructor.
  - reflexivity.
  - reflexivity.
  - reflexivity.
Defined.

(** The props' own key-down handler returns [s2]: no plugin's handler is
    called, though the second plugin's would return [s1]. *)
Lemma props_plugin_comes_first_scenario :
  calls (onEvent onKeyDown ["k"%string] overridingEditor) =
  PluginEvent 0 onKeyDown ["k"%string] (getState overridingEditor) ::
  calls (onChange s2 overridingEditor).
Proof.
  destruct (@props_plugin_comes_first _ _ _ _ _ _ _ TextCorePlugin
              overridingEditor overridingProps eq_refl) as [Hfirst _].
  destruct (Hfirst onKeyDown ["k"%string]
              (fun _ _ _ => Normal (Some s2)) s2 eq_refl eq_refl)
    as (_ & _ & Hcalls & _).
  exact Hcalls.
Defined.

(** New props with the state [s2] for the editor with the failing plugin,
    whose [onBeforeChange] hook lets [s2] pass: [s2] becomes the editor's
    state and that hook is the one call. *)
Lemma receiveProps_outcome_scenario :
  let r := receiveProps TextCorePlugin TextSchema_create passingNextProps
             failingEditor in
  completion r = Normal tt
  /\ getState (after r) = Some s2
  /\ this_tmp (after r) = cache_of s2
  /\ this_props (after r) = passingNextProps
  /\ this_pending (after r) = []
  /\ is_constructed (after r) = true
  /\ Forall (fun c => exists i s, c = PluginBeforeChange i s) (calls r)
  /\ calls r = [PluginBeforeChange 1 s2].
Proof.
  exact (receiveProps_outcome TextCorePlugin TextSchema_create failingEditor
           passingNextProps (state := s2) eq_refl).
Defined.

(** New props with another [plugins] array and the state [s1] for the
    scenario editor: the new plugin's [onBeforeChange] hook, which rejects
    [s1], is not run by this update. *)
Lemma receiveProps_new_plugins_scenario :
  let r := receiveProps TextCorePlugin TextSchema_create newPluginsProps
             scenarioEditor in
  calls r = calls (onBeforeChange s1 scenarioEditor)
  /\ state_plugins (this_state (after r)) =
     resolvePlugins TextCorePlugin newPluginsProps
  /\ getSchema (after r) =
     resolveSchema TextSchema_create
       (resolvePlugins TextCorePlugin newPluginsProps).
Proof.
  destruct (receiveProps_new_plugins TextCorePlugin TextSchema_create
              scenarioEditor newPluginsProps eq_refl eq_refl)
    as [Hcalls Hdone].
  split; [exact Hcalls|]. exact (Hdone eq_refl).
Defined.

(** The scenario editor is constructed and stays so. *)
Lemma commit_keeps_constructed_scenario :
  is_constructed (after (onChange s1 scenarioEditor)) = true
  /\ is_constructed (after (onEvent onKeyDown ["k"%string] scenarioEditor))
     = true.
Proof.
  destruct (commit_keeps_constructed scenarioEditor eq_refl)
    as [Hchange Hevent].
  split; [exact (Hchange s1)|exact (Hevent onKeyDown ["k"%string])].
Defined.

(** A blur transform that returns the state it is given: [blur] does
    nothing. *)
Lemma focus_blur_bypass_handlers_scenario :
  blur text_blur "TypeError"%string scenarioEditor =
  {| completion := Normal tt; after := scenarioEditor; calls := [] |}.
Proof.
  destruct (focus_blur_bypass_handlers text_blur text_focus
              "TypeError"%string scenarioEditor) as (_ & _ & _ & Hsame).
  exact (proj2 (Hsame s0 s0 eq_refl eq_refl) eq_refl).
Defined.

(** [focus] on the scenario editor: the transform makes a new state with a
    new selection instance, and [onSelectionChange] is called. *)
Lemma focus_notifies_new_selection_scenario :
  completion (focus text_focus "TypeError"%string scenarioEditor) = Normal tt
  /\ In (PropsChange
          {| state_ref := 110;
             document := D0;
             selection := {| selection_ref := 103;
                             selection_data := true |} |})
       (calls (focus text_focus "TypeError"%string scenarioEditor))
  /\ In (PropsSelectionChange
          {| selection_ref := 103; selection_data := true |}
          {| state_ref := 110;
             document := D0;
             selection := {| selection_ref := 103;
                             selection_data := true |} |})
       (calls (focus text_focus "TypeError"%string scenarioEditor)).
Proof.
  destruct (@focus_notifies_new_selection _ _ _ _ _ _ _ text_focus
              "TypeError"%string scenarioEditor s0
              {| state_ref := 110;
                 document := D0;
                 selection := {| selection_ref := 103;
                                 selection_data := true |} |})
    as (Hdone & Hchange & Hselection & _);
    try reflexivity.
  - repeat constructor.
  - split; [exact Hdone|]. split; [exact Hchange|exact Hselection].
Defined.
